(** * trustar-python: the client, its model base class and the pagination engine

    A shallow embedding of [trustar/trustar.py] and [trustar/models/base.py],
    together with a model of the pagination engine of [trustar/page.py]
    ([Page], the page generator and the item generator).

    Python dictionaries are [gmap string _], Python integers are [Z], and code
    that can raise returns a sum whose left side is the exception.  Code that
    talks to the network threads an explicit world [W]. *)

From Stdlib Require Import ZArith Lia.
From stdpp Require Import base option list gmap strings fin_maps pretty.

Set Warnings "-register-all".
Open Scope Z_scope.

(* ===================================================================== *)
(** * Python values, exceptions and results                               *)
(* ===================================================================== *)

Module Py.

(** The Python values that occur in configurations, JSON bodies and request
    parameters.  [PyObject cls attrs] is an instance of a user class. *)
Inductive PyValue : Type :=
  | PyNone
  | PyBool (b : bool)
  | PyInt (z : Z)
  | PyStr (s : string)
  | PyList (l : list PyValue)
  | PyDict (d : gmap string PyValue)
  | PyObject (cls : string) (attrs : gmap string PyValue).

Inductive PyExc : Type :=
  | Exception (msg : string)
  | KeyError (key : string)
  | TypeError
  | AttributeError
  | ValueError
  | RecursionError
  | NotImplementedError
  | HTTPError (msg : string) (status : Z)
  | ConnectionError (msg : string)
  | UnicodeDecodeError.

Definition Result (A : Type) : Type := PyExc + A.

Definition ret {A} (a : A) : Result A := inr a.
Definition raise {A} (e : PyExc) : Result A := inl e.
Definition bind {A B} (m : Result A) (k : A → Result B) : Result B :=
  match m with
  | inl e => inl e
  | inr a => k a
  end.

Definition raises {A} (m : Result A) : Prop := ∃ e, m = inl e.

(** [v is None] *)
Definition is_none (v : PyValue) : bool :=
  match v with PyNone => true | _ => false end.

(** [v == s] for a [str] literal [s]: only a [str] compares equal to a [str]. *)
Definition eq_str (v : PyValue) (s : string) : bool :=
  match v with
  | PyStr s' => bool_decide (s' = s)
  | _ => false
  end.

(** [v in l] for a list [l] of [str] literals. *)
Definition in_str_list (v : PyValue) (l : list string) : bool :=
  existsb (eq_str v) l.

(** [v in d] for a dictionary [d] with [str] keys. *)
Definition in_dict {A} (v : PyValue) (d : gmap string A) : bool :=
  match v with
  | PyStr s => bool_decide (is_Some (d !! s))
  | _ => false
  end.

(** [d.get(k)] *)
Definition dict_get (d : gmap string PyValue) (k : string) : PyValue :=
  default PyNone (d !! k).

(** [d[k]] *)
Definition dict_item (d : gmap string PyValue) (k : string) : Result PyValue :=
  match d !! k with
  | Some v => ret v
  | None => raise (KeyError k)
  end.

(** [s.upper()] on the ASCII letters. *)
Definition upper_ascii (c : Ascii.ascii) : Ascii.ascii :=
  let n := Ascii.nat_of_ascii c in
  if (97 <=? n)%nat && (n <=? 122)%nat then Ascii.ascii_of_nat (n - 32) else c.

Fixpoint upper (s : string) : string :=
  match s with
  | EmptyString => EmptyString
  | String c r => String (upper_ascii c) (upper r)
  end.

(** [sub in s] for two strings. *)
Fixpoint prefix_of (p s : string) : bool :=
  match p, s with
  | EmptyString, _ => true
  | String a p', String b s' => bool_decide (a = b) && prefix_of p' s'
  | String _ _, EmptyString => false
  end.

Fixpoint substring_of (p s : string) : bool :=
  prefix_of p s ||
  match s with
  | EmptyString => false
  | String _ s' => substring_of p s'
  end.

End Py.

Import Py.

Notation "'let*' x ':=' m 'in' k" := (Py.bind m (λ x, k))
  (at level 10, x name, m at level 100, k at level 200).

(* ===================================================================== *)
(** * models/base.py                                                      *)
(* ===================================================================== *)

Module ModelBase.

(** [{k: v for k, v in d.items() if v is not None}]: the entries of [d] are
    visited one by one and the kept ones are stored in a fresh dictionary. *)
Definition remove_nones_comprehension (d : gmap string PyValue) : gmap string PyValue :=
  map_fold (λ k v acc, if is_none v then acc else <[k:=v]> acc) ∅ d.

(** [ModelBase.to_dict(self, remove_nones)].  The call [self.to_dict()] in its
    body is late bound; [self_to_dict] is what it resolves to on the instance,
    called with the default [remove_nones=False]. *)
Definition to_dict (self_to_dict : bool → Result (gmap string PyValue))
    (remove_nones : bool) : Result (gmap string PyValue) :=
  if remove_nones then
    let* d := self_to_dict false in
    ret (remove_nones_comprehension d)
  else
    raise NotImplementedError.

Section Dispatch.
Context {Self : Type}.

(** A class derived from [ModelBase]: [Some f] when it overrides [to_dict],
    [None] when it inherits the method. *)
Variable override : option (Self → bool → Result (gmap string PyValue)).

(** Method resolution of [obj.to_dict(remove_nones)], [depth] being the
    interpreter's remaining call depth. *)
Fixpoint call_to_dict (depth : nat) (self : Self) (remove_nones : bool)
    : Result (gmap string PyValue) :=
  match depth with
  | O => raise RecursionError
  | S depth' =>
      match override with
      | Some f => f self remove_nones
      | None => to_dict (call_to_dict depth' self) remove_nones
      end
  end.

(** [ModelBase.to_dict(self, remove_nones)] reached on an instance of the
    class, as [super().to_dict(...)] or by inheritance. *)
Definition base_to_dict (depth : nat) (self : Self) (remove_nones : bool)
    : Result (gmap string PyValue) :=
  to_dict (call_to_dict depth self) remove_nones.

End Dispatch.

End ModelBase.

(* ===================================================================== *)
(** * page.py: the pagination engine                                      *)
(* ===================================================================== *)

Module Page.

(** Modelled from the spec: the pagination part of a server response, before
    validation (section 4.1): the metadata fields may be missing ([None]) and
    the has-more flag is optional. *)
Record RawPage (T : Type) : Type := mkRaw {
  raw_items : list T;
  raw_pageNumber : option Z;
  raw_pageSize : option Z;
  raw_totalElements : option Z;
  raw_hasMore : option bool
}.
Arguments mkRaw {T}.
Arguments raw_items {T}.
Arguments raw_pageNumber {T}.
Arguments raw_pageSize {T}.
Arguments raw_totalElements {T}.
Arguments raw_hasMore {T}.

(** Modelled from the spec: the [Page] class of [trustar/page.py], the module
    [trustar.py] imports it from.  A page is an immutable snapshot of one
    server response. *)
Record Page (T : Type) : Type := mkPage {
  items : list T;
  pageNumber : Z;
  pageSize : Z;
  totalElements : Z;
  hasMore : bool
}.
Arguments mkPage {T}.
Arguments items {T}.
Arguments pageNumber {T}.
Arguments pageSize {T}.
Arguments totalElements {T}.
Arguments hasMore {T}.

Inductive PageError : Type :=
  | MalformedPageError.

(** Modelled from the spec: a required metadata field is present and a
    non-negative integer. *)
Definition required_field (o : option Z) : PageError + Z :=
  match o with
  | Some z => if 0 <=? z then inr z else inl MalformedPageError
  | None => inl MalformedPageError
  end.

(** Modelled from the spec: construction of a [Page] from the raw response
    (section 4.1).  [hasMore] is the explicit flag when the response carries
    one and is derived from the counts otherwise. *)
Definition from_raw {T} (r : RawPage T) : PageError + Page T :=
  match required_field (raw_pageNumber r),
        required_field (raw_pageSize r),
        required_field (raw_totalElements r) with
  | inr pn, inr ps, inr total =>
      inr {| items := raw_items r;
             pageNumber := pn;
             pageSize := ps;
             totalElements := total;
             hasMore := match raw_hasMore r with
                        | Some flag => flag
                        | None => (pn + 1) * ps <? total
                        end |}
  | _, _, _ => inl MalformedPageError
  end.

(** Modelled from the spec: [hasNextPage()], a pure function of the stored
    fields. *)
Definition hasNextPage {T} (p : Page T) : bool := hasMore p.

(** Modelled from the spec: what one pull of a generator gives its consumer,
    an element, the end of the sequence, or an error. *)
Inductive Outcome (A E : Type) : Type :=
  | Yield (a : A)
  | Stop
  | Raise (e : E).
Arguments Yield {A E}.
Arguments Stop {A E}.
Arguments Raise {A E}.

(** How a whole run of a generator ended. *)
Inductive Ending (E : Type) : Type :=
  | Finished
  | Errored (e : E)
  | OutOfFuel.
Arguments Finished {E}.
Arguments Errored {E}.
Arguments OutOfFuel {E}.

Section Engine.
Context {T E W : Type}.

(** Modelled from the spec: the page-fetch capability (section 3), given the
    page number and the page size ([None]: the server chooses); it acts on
    the world and may fail. *)
Definition PageFetchFunction : Type := Z → option Z → W → (E + Page T) * W.

Inductive Status : Type :=
  | Ready (next : Z)
  | Exhausted
  | Failed (e : E).

(** Modelled from the spec: the state of a [PageGenerator] (section 4.2).
    [requested] records, oldest first, the page numbers the fetch function
    has been invoked with. *)
Record PageGenerator : Type := mkPageGenerator {
  fetchFn : PageFetchFunction;
  size : option Z;
  status : Status;
  requested : list Z
}.

(** Modelled from the spec: construction of a [PageGenerator]; nothing is
    fetched before the first pull. *)
Definition get_page_generator (func : PageFetchFunction) (start_page : Z)
    (page_size : option Z) : PageGenerator :=
  {| fetchFn := func; size := page_size;
     status := Ready start_page; requested := [] |}.

(** Modelled from the spec: one pull of the page sequence.  A ready generator
    fetches its next page; a failure of the fetch is raised as it is and
    leaves the generator failed; a page is yielded, and the generator is
    exhausted when that page has no next page.  An exhausted generator ends
    the sequence and a failed one raises its error again, both without a
    fetch. *)
Definition pull (g : PageGenerator) (w : W)
    : Outcome (Page T) E * PageGenerator * W :=
  match status g with
  | Ready n =>
      let '(r, w') := fetchFn g n (size g) w in
      match r with
      | inl e =>
          (Raise e,
           {| fetchFn := fetchFn g; size := size g;
              status := Failed e; requested := requested g ++ [n] |},
           w')
      | inr p =>
          (Yield p,
           {| fetchFn := fetchFn g; size := size g;
              status := if hasNextPage p then Ready (n + 1) else Exhausted;
              requested := requested g ++ [n] |},
           w')
      end
  | Exhausted => (Stop, g, w)
  | Failed e => (Raise e, g, w)
  end.

(** [n] successive pulls. *)
Fixpoint pulls (n : nat) (g : PageGenerator) (w : W)
    : list (Outcome (Page T) E) * PageGenerator * W :=
  match n with
  | O => ([], g, w)
  | S n' =>
      let '(o, g', w') := pull g w in
      let '(os, g'', w'') := pulls n' g' w' in
      (o :: os, g'', w'')
  end.

(** Consuming the page sequence to its end: the pages, and how it ended. *)
Fixpoint run_pages (fuel : nat) (g : PageGenerator) (w : W)
    : list (Page T) * Ending E * PageGenerator * W :=
  match fuel with
  | O => ([], OutOfFuel, g, w)
  | S fuel' =>
      let '(o, g', w') := pull g w in
      match o with
      | Yield p =>
          let '(ps, e, g'', w'') := run_pages fuel' g' w' in
          (p :: ps, e, g'', w'')
      | Stop => ([], Finished, g', w')
      | Raise e => ([], Errored e, g', w')
      end
  end.

(** Modelled from the spec: the state of an [ItemGenerator] (section 4.3),
    the wrapped page generator and the items of the current page that are
    still to be yielded. *)
Record ItemGenerator : Type := mkItemGenerator {
  page_generator : PageGenerator;
  pending : list T
}.

(** Modelled from the spec: construction of an [ItemGenerator] around a page
    generator. *)
Definition get_generator (pg : PageGenerator) : ItemGenerator :=
  {| page_generator := pg; pending := [] |}.

(** Modelled from the spec: what one step of the item generator does; it
    yields the next item of the current page, or, the page being used up,
    pulls the next page. *)
Inductive ItemEvent : Type :=
  | Emit (x : T)
  | NextPage (p : Page T)
  | Ended
  | Aborted (e : E).

Definition item_step (ig : ItemGenerator) (w : W)
    : ItemEvent * ItemGenerator * W :=
  match pending ig with
  | x :: rest =>
      (Emit x, {| page_generator := page_generator ig; pending := rest |}, w)
  | [] =>
      let '(o, pg', w') := pull (page_generator ig) w in
      match o with
      | Yield p => (NextPage p, {| page_generator := pg'; pending := items p |}, w')
      | Stop => (Ended, {| page_generator := pg'; pending := [] |}, w')
      | Raise e => (Aborted e, {| page_generator := pg'; pending := [] |}, w')
      end
  end.

(** Modelled from the spec: one pull of the item sequence; empty pages are
    skipped, [None] when [fuel] pages did not suffice. *)
Fixpoint next_item (fuel : nat) (ig : ItemGenerator) (w : W)
    : option (Outcome T E * ItemGenerator * W) :=
  match fuel with
  | O => None
  | S fuel' =>
      let '(ev, ig', w') := item_step ig w in
      match ev with
      | Emit x => Some (Yield x, ig', w')
      | NextPage _ => next_item fuel' ig' w'
      | Ended => Some (Stop, ig', w')
      | Aborted e => Some (Raise e, ig', w')
      end
  end.

(** Consuming the item sequence to its end. *)
Fixpoint run_items (fuel : nat) (ig : ItemGenerator) (w : W)
    : list T * Ending E * ItemGenerator * W :=
  match fuel with
  | O => ([], OutOfFuel, ig, w)
  | S fuel' =>
      let '(ev, ig', w') := item_step ig w in
      match ev with
      | Emit x =>
          let '(xs, e, ig'', w'') := run_items fuel' ig' w' in
          (x :: xs, e, ig'', w'')
      | NextPage _ => run_items fuel' ig' w'
      | Ended => ([], Finished, ig', w')
      | Aborted e => ([], Errored e, ig', w')
      end
  end.

End Engine.

Arguments PageFetchFunction : clear implicits.
Arguments PageGenerator : clear implicits.
Arguments ItemGenerator : clear implicits.

(** Modelled from the spec: the synthetic dataset of section 8, a server
    holding [data] and serving it in pages; it uses the requested page size,
    or [default_size] when none is requested, and sends no explicit has-more
    flag. *)
Definition serve {T W} (data : list T) (default_size : Z)
    : PageFetchFunction T PageError W :=
  λ page_number page_size w,
    let s := default default_size page_size in
    (from_raw {| raw_items := take (Z.to_nat s) (drop (Z.to_nat (page_number * s)) data);
                 raw_pageNumber := Some page_number;
                 raw_pageSize := Some s;
                 raw_totalElements := Some (Z.of_nat (length data));
                 raw_hasMore := None |},
     w).

End Page.

(* ===================================================================== *)
(** * trustar.py: the client                                              *)
(* ===================================================================== *)

Module TruStar.

Definition CLIENT_VERSION : string := "0.3.0".

(** raise exception if any of these config keys are missing *)
Definition REQUIRED_KEYS : list string :=
  ["auth"; "base"; "api_key"; "api_secret"].

(** allow configs to use different key names for config values *)
Definition REMAPPED_KEYS : list (string * string) :=
  [("auth_endpoint", "auth");
   ("api_endpoint", "base");
   ("user_api_key", "api_key");
   ("user_api_secret", "api_secret")].

(** default config values *)
Definition DEFAULTS : gmap string PyValue :=
  list_to_map
    [("client_type", PyStr "PYTHON_SDK");
     ("client_version", PyStr CLIENT_VERSION);
     ("client_metatag", PyNone);
     ("verify", PyBool true)].

(** The attributes of a [TruStar] instance. *)
Record t : Type := mk {
  auth : PyValue;
  base : PyValue;
  api_key : PyValue;
  api_secret : PyValue;
  client_type : PyValue;
  client_version : PyValue;
  client_metatag : PyValue;
  verify : PyValue;
  enclave_ids : PyValue
}.

(** ** [__init__], from the point where [config] is a dictionary *)

(** One round of the loop over [REMAPPED_KEYS.items()]. *)
Definition remap_key (config : gmap string PyValue) (kv : string * string)
    : gmap string PyValue :=
  match config !! kv.1, config !! kv.2 with
  | Some x, None => <[kv.2 := x]> config
  | _, _ => config
  end.

Definition remap_keys (config : gmap string PyValue) : gmap string PyValue :=
  foldl remap_key config REMAPPED_KEYS.

(** The body of the loop over [config.items()]. *)
Definition check_item (config : gmap string PyValue) (key : string) (val : PyValue)
    : Result (gmap string PyValue) :=
  if is_none val then
    if in_str_list val REQUIRED_KEYS then
      raise (Exception ("Missing config value for " +:+ key))
    else if in_dict val DEFAULTS then
      let* d := dict_item DEFAULTS key in
      ret (<[key := d]> config)
    else ret config
  else ret config.

Fixpoint check_items (its : list (string * PyValue)) (config : gmap string PyValue)
    : Result (gmap string PyValue) :=
  match its with
  | [] => ret config
  | (key, val) :: rest =>
      let* config' := check_item config key val in
      check_items rest config'
  end.

(** Both loops: the dictionary the properties are then read from. *)
Definition configure (config : gmap string PyValue) : Result (gmap string PyValue) :=
  let config := remap_keys config in
  check_items (map_to_list config) config.

Definition set_properties (config : gmap string PyValue) : t :=
  let ids := dict_get config "enclave_ids" in
  {| auth := dict_get config "auth";
     base := dict_get config "base";
     api_key := dict_get config "api_key";
     api_secret := dict_get config "api_secret";
     client_type := dict_get config "client_type";
     client_version := dict_get config "client_version";
     client_metatag := dict_get config "client_metatag";
     verify := dict_get config "verify";
     enclave_ids := match ids with
                    | PyStr _ => PyList [ids]
                    | _ => ids
                    end |}.

(** [TruStar(config=config)] for a dictionary [config]. *)
Definition __init__ (config : gmap string PyValue) : Result t :=
  let* config' := configure config in
  ret (set_properties config').

(** ** Requests *)

(** The response object of the [requests] library: [json] is what
    [response.json()] gives or raises. *)
Record Response : Type := mkResponse {
  status_code : Z;
  json : Result PyValue;
  content : string
}.

(** What the client relies on without defining it: the [requests] library
    acting on the network [W], the builtin [str], and the [Report] and
    [Page] classes of the package ([PageObj] is a [Page] instance, [G] and
    [IG] the two kinds of generators of [trustar/page.py]). *)
Class Environment (W PageObj G IG : Type) : Type := {
  requests_post :
    PyValue → PyValue * PyValue → gmap string PyValue → W → Result Response * W;
  requests_request :
    string → string → gmap string PyValue → PyValue → gmap string PyValue →
    W → Result Response * W;
  py_str : PyValue → string;
  DISTRIBUTION_TYPE_ENCLAVE : string;
  Report_from_dict : PyValue → Result PyValue;
  Page_from_dict : PyValue → Result PageObj;
  Page_get_page_generator :
    (PyValue → PyValue → W → Result PageObj * W) → PyValue → PyValue → G;
  Page_get_generator : G → IG
}.

Section Client.
Context {W PageObj G IG : Type} {env : Environment W PageObj G IG}.

(** Code that acts on the network and can raise. *)
Definition IO (A : Type) : Type := W → Result A * W.

Definition io_bind {A B} (m : IO A) (k : A → IO B) : IO B :=
  λ w, match m w with
       | (inl e, w') => (inl e, w')
       | (inr a, w') => k a w'
       end.

Definition io_lift {A} (r : Result A) : IO A := λ w, (r, w).

Local Notation "'do*' x ':=' m 'in' k" := (io_bind m (λ x, k))
  (at level 10, x name, m at level 100, k at level 200).

(** [v[k]] for a [str] key. *)
Definition subscript (v : PyValue) (k : string) : Result PyValue :=
  match v with
  | PyDict d => dict_item d k
  | _ => raise TypeError
  end.

(** [k in v] for a [str] literal [k]. *)
Definition contains (v : PyValue) (k : string) : Result bool :=
  match v with
  | PyDict d => ret (bool_decide (is_Some (d !! k)))
  | PyList l => ret (existsb (λ x, eq_str x k) l)
  | PyStr s => ret (substring_of k s)
  | _ => raise TypeError
  end.

(** ["{} {} Error: {}".format(status, "Client" if status < 500 else "Server", reason)] *)
Definition error_message (status : Z) (reason : string) : string :=
  pretty status +:+ " " +:+ (if status <? 500 then "Client" else "Server")
    +:+ " Error: " +:+ reason.

Definition __get_token (self : t) : IO PyValue :=
  let client_auth := (api_key self, api_secret self) in
  let post_data := {["grant_type" := PyStr "client_credentials"]} in
  do* response := requests_post (auth self) client_auth post_data in
  (* raise exception if status code indicates an error *)
  if (400 <=? status_code response) && (status_code response <? 600) then
    io_lift (raise (HTTPError (error_message (status_code response) "unable to get token")
                              (status_code response)))
  else
    io_lift (let* body := json response in subscript body "access_token").

Definition __get_headers (self : t) (is_json : bool) : IO (gmap string PyValue) :=
  do* token := __get_token self in
  io_lift
    (let* bearer := match token with
                    | PyStr s => ret ("Bearer " +:+ s)
                    | _ => raise TypeError
                    end in
     let headers := {["Authorization" := PyStr bearer]} in
     let headers := if is_none (client_type self) then headers
                    else <["Client-Type" := client_type self]> headers in
     let headers := if is_none (client_version self) then headers
                    else <["Client-Version" := client_version self]> headers in
     let headers := if is_none (client_metatag self) then headers
                    else <["Client-Metatag" := client_metatag self]> headers in
     let headers := if is_json then <["Content-Type" := PyStr "application/json"]> headers
                    else headers in
     ret headers).

(** Whether one of [names] is among the keyword arguments. *)
Definition kw_has (names : list string) (kwargs : gmap string PyValue) : bool :=
  existsb (λ n, bool_decide (is_Some (kwargs !! n))) names.

(** [__request(method, path, **kwargs)]: a [headers] keyword binds the
    parameter of that name, the others are forwarded. *)
Definition __request (self : t) (method path : string) (kwargs : gmap string PyValue)
    : IO Response :=
  if kw_has ["method"; "path"] kwargs then io_lift (raise TypeError) else
  let headers := dict_get kwargs "headers" in
  let kwargs := delete "headers" kwargs in
  (* get headers and merge with headers from method parameter if it exists *)
  do* base_headers := __get_headers self (bool_decide (method ∈ ["POST"; "PUT"])) in
  do* base_headers := io_lift match headers with
                              | PyNone => ret base_headers
                              | PyDict h => ret (h ∪ base_headers)
                              | _ => raise TypeError
                              end in
  (* make request *)
  if kw_has ["url"; "verify"] kwargs then io_lift (raise TypeError) else
  do* response := requests_request method (py_str (base self) +:+ "/" +:+ path)
                    base_headers (verify self) kwargs in
  (* raise exception if status code indicates an error *)
  if (400 <=? status_code response) && (status_code response <? 600) then
    io_lift
      (let* body := json response in
       let* has_message := contains body "message" in
       let* reason := if has_message then
                        let* m := subscript body "message" in ret (py_str m)
                      else ret "unknown cause" in
       raise (HTTPError (error_message (status_code response) reason)
                        (status_code response)))
  else io_lift (ret response).

Definition __get (self : t) (path : string) (kwargs : gmap string PyValue) : IO Response :=
  __request self "GET" path kwargs.

(** A call [f(name=v, **kwargs)]: a keyword given twice is a [TypeError]. *)
Definition kw_pass (name : string) (v : PyValue) (kwargs : gmap string PyValue)
    : Result (gmap string PyValue) :=
  match kwargs !! name with
  | Some _ => raise TypeError
  | None => ret (<[name := v]> kwargs)
  end.

(** The items of an iteration over [v]. *)
Definition iterate (v : PyValue) : Result (list PyValue) :=
  match v with
  | PyList l => ret l
  | PyDict d => ret (PyStr <$> (map_to_list d).*1)
  | PyStr s => ret ((λ c, PyStr (String c EmptyString)) <$> String.list_ascii_of_string s)
  | _ => raise TypeError
  end.

Fixpoint map_result {A B} (f : A → Result B) (l : list A) : Result (list B) :=
  match l with
  | [] => ret []
  | a :: l' =>
      let* b := f a in
      let* bs := map_result f l' in
      ret (b :: bs)
  end.

(** ** Report and indicator endpoints that return pages *)

Definition get_reports (self : t) (kw : gmap string PyValue) : IO PageObj :=
  let distribution_type := dict_get kw "distribution_type" in
  let enclave_ids := dict_get kw "enclave_ids" in
  let tag := dict_get kw "tag" in
  let from_time := dict_get kw "from_time" in
  let to_time := dict_get kw "to_time" in
  let page_number := dict_get kw "page_number" in
  let page_size := dict_get kw "page_size" in
  let kwargs := foldr delete kw
    ["distribution_type"; "enclave_ids"; "tag"; "from_time"; "to_time";
     "page_number"; "page_size"] in
  (* make enclave_ids default to configured list of enclave IDs *)
  do* enclave_ids := io_lift
    (if is_none enclave_ids && negb (is_none distribution_type) then
       match distribution_type with
       | PyStr s =>
           if bool_decide (upper s = DISTRIBUTION_TYPE_ENCLAVE)
           then ret (TruStar.enclave_ids self) else ret enclave_ids
       | _ => raise AttributeError
       end
     else ret enclave_ids) in
  let params : gmap string PyValue :=
    list_to_map
      [("from", from_time); ("to", to_time);
       ("distributionType", distribution_type);
       ("enclaveIds", enclave_ids); ("tag", tag);
       ("pageNumber", page_number); ("pageSize", page_size)] in
  do* kwargs := io_lift (kw_pass "params" (PyDict params) kwargs) in
  do* resp := __get self "reports" kwargs in
  io_lift
    (let* body := json resp in
     (* replace each dict in 'items' with a Report object *)
     let* raw := subscript body "items" in
     let* its := iterate raw in
     let* reports := map_result Report_from_dict its in
     match body with
     | PyDict b =>
         (* create a Page object from the dict *)
         Page_from_dict (PyDict (<["items" := PyList reports]> b))
     | _ => raise TypeError
     end).

Definition get_community_trends (self : t) (kw : gmap string PyValue) : IO PageObj :=
  let indicator_type := dict_get kw "indicator_type" in
  let from_time := dict_get kw "from_time" in
  let to_time := dict_get kw "to_time" in
  let page_size := dict_get kw "page_size" in
  let page_number := dict_get kw "page_number" in
  let kwargs := foldr delete kw
    ["indicator_type"; "from_time"; "to_time"; "page_size"; "page_number"] in
  let params : gmap string PyValue :=
    list_to_map
      [("type", indicator_type); ("from", from_time); ("to", to_time);
       ("pageSize", page_size); ("pageNumber", page_number)] in
  do* kwargs := io_lift (kw_pass "params" (PyDict params) kwargs) in
  do* resp := __get self "indicators/community-trending" kwargs in
  io_lift (let* body := json resp in Page_from_dict body).

Definition get_related_indicators (self : t) (kw : gmap string PyValue) : IO PageObj :=
  let indicators := dict_get kw "indicators" in
  let sources := dict_get kw "sources" in
  let page_size := dict_get kw "page_size" in
  let page_number := dict_get kw "page_number" in
  let kwargs := foldr delete kw
    ["indicators"; "sources"; "page_size"; "page_number"] in
  let params : gmap string PyValue :=
    list_to_map
      [("indicators", indicators); ("types", sources);
       ("pageNumber", page_number); ("pageSize", page_size)] in
  do* kwargs := io_lift (kw_pass "params" (PyDict params) kwargs) in
  do* resp := __get self "indicators/related" kwargs in
  io_lift (let* body := json resp in Page_from_dict body).

(** ** Generators *)

(** The closure [func] of a page-generator constructor around the endpoint
    method [endpoint]: [endpoint(page_number=page_number,
    page_size=page_size, **kwargs)]. *)
Definition page_func (endpoint : gmap string PyValue → IO PageObj)
    (kwargs : gmap string PyValue) (page_number page_size : PyValue) : IO PageObj :=
  match kw_pass "page_number" page_number kwargs with
  | inl e => io_lift (raise e)
  | inr kw1 =>
      match kw_pass "page_size" page_size kw1 with
      | inl e => io_lift (raise e)
      | inr kw2 => endpoint kw2
      end
  end.

(** The parameters [start_page=0, page_size=None, **kwargs] bound from the
    keyword arguments [kw] of a call. *)
Definition start_page_of (kw : gmap string PyValue) : PyValue :=
  default (PyInt 0) (kw !! "start_page").

Definition page_size_of (kw : gmap string PyValue) : PyValue :=
  default PyNone (kw !! "page_size").

Definition rest_of (kw : gmap string PyValue) : gmap string PyValue :=
  delete "start_page" (delete "page_size" kw).

Definition get_report_page_generator (self : t) (kw : gmap string PyValue) : G :=
  let start_page := start_page_of kw in
  let page_size := page_size_of kw in
  let kwargs := rest_of kw in
  let func := page_func (get_reports self) kwargs in
  Page_get_page_generator func start_page page_size.

Definition get_report_generator (self : t) (kwargs : gmap string PyValue) : IG :=
  Page_get_generator (get_report_page_generator self kwargs).

Definition get_community_trends_page_generator (self : t) (kw : gmap string PyValue) : G :=
  let start_page := start_page_of kw in
  let page_size := page_size_of kw in
  let kwargs := rest_of kw in
  let func := page_func (get_community_trends self) kwargs in
  Page_get_page_generator func start_page page_size.

Definition get_community_trends_generator (self : t) (kwargs : gmap string PyValue) : IG :=
  Page_get_generator (get_community_trends_page_generator self kwargs).

Definition get_related_indicators_page_generator (self : t) (kw : gmap string PyValue) : G :=
  let start_page := start_page_of kw in
  let page_size := page_size_of kw in
  let kwargs := rest_of kw in
  let func := page_func (get_related_indicators self) kwargs in
  Page_get_page_generator func start_page page_size.

Definition get_related_indicators_generator (self : t) (kwargs : gmap string PyValue) : IG :=
  Page_get_generator (get_related_indicators_page_generator self kwargs).

End Client.

End TruStar.

(* ===================================================================== *)
(** * Scenarios: concrete servers, responses and clients                  *)
(* ===================================================================== *)

Module Scenario.

(** A dataset of seven items, served three to a page. *)
Definition seven : list Z := [0; 1; 2; 3; 4; 5; 6].

Definition seven_pages : list (Page.Page Z) :=
  [Page.mkPage [0; 1; 2] 0 3 7 true;
   Page.mkPage [3; 4; 5] 1 3 7 true;
   Page.mkPage [6] 2 3 7 false].

(** A fetch function over [data] whose request for page [k] fails with a
    network error. *)
Definition flaky {T W} (data : list T) (default_size k : Z)
    : Page.PageFetchFunction T string W :=
  λ page_number page_size w,
    if page_number =? k then (inl "network error", w)
    else match Page.serve data default_size page_number page_size w with
         | (inl Page.MalformedPageError, w') => (inl "malformed page", w')
         | (inr p, w') => (inr p, w')
         end.

Definition seven_generator : Page.PageGenerator Z Page.PageError unit :=
  Page.get_page_generator (Page.serve seven 3) 0 None.

(** The generator after its three pages have been pulled. *)
Definition seven_exhausted : Page.PageGenerator Z Page.PageError unit :=
  Page.mkPageGenerator (Page.serve seven 3) None Page.Exhausted [0; 1; 2].

Definition flaky_generator : Page.PageGenerator Z string unit :=
  Page.get_page_generator (flaky seven 3 2) 0 None.

(** The flaky generator after pages 0 and 1 have been pulled, and after the
    failed pull of page 2. *)
Definition flaky_ready : Page.PageGenerator Z string unit :=
  Page.mkPageGenerator (flaky seven 3 2) None (Page.Ready 2) [0; 1].

Definition flaky_failed : Page.PageGenerator Z string unit :=
  Page.mkPageGenerator (flaky seven 3 2) None (Page.Failed "network error") [0; 1; 2].

(** A response without the explicit flag, and one that carries it. *)
Definition counted : Page.RawPage Z :=
  Page.mkRaw [3; 4; 5] (Some 1) (Some 3) (Some 7) None.

Definition flagged : Page.RawPage Z :=
  Page.mkRaw [3; 4; 5] (Some 1) (Some 3) (Some 7) (Some false).

(** A network on which every request is answered by [resp]; the generators
    are represented by the start page and page size they were built with. *)
Definition answering (resp : TruStar.Response)
    : TruStar.Environment unit PyValue (PyValue * PyValue) (PyValue * PyValue) :=
  {| TruStar.requests_post := λ _ _ _ w, (inr resp, w);
     TruStar.requests_request := λ _ _ _ _ _ w, (inr resp, w);
     TruStar.py_str := λ v, match v with PyStr s => s | _ => "?" end;
     TruStar.DISTRIBUTION_TYPE_ENCLAVE := "ENCLAVE";
     TruStar.Report_from_dict := ret;
     TruStar.Page_from_dict := ret;
     TruStar.Page_get_page_generator := λ _ start_page page_size, (start_page, page_size);
     TruStar.Page_get_generator := id |}.

Definition token_body : PyValue :=
  PyDict {["access_token" := PyStr "tok"]}.

Definition ok_response : TruStar.Response :=
  TruStar.mkResponse 200 (inr token_body) "{}".

(** A redirect status whose body nevertheless carries a token. *)
Definition redirect_response : TruStar.Response :=
  TruStar.mkResponse 302 (inr token_body) "{}".

Definition station_config : gmap string PyValue :=
  {[ "auth_endpoint" := PyStr "https://other.example/oauth/token";
     "auth" := PyStr "https://api.trustar.co/oauth/token";
     "base" := PyStr "https://api.trustar.co/api/1.3-beta";
     "api_key" := PyStr "key";
     "api_secret" := PyStr "secret" ]}.

Definition client : TruStar.t := TruStar.set_properties station_config.

(** A model class overriding [to_dict], with one attribute unset. *)
Definition tag_to_dict (self : string) (remove_nones : bool)
    : Result (gmap string PyValue) :=
  ret {[ "name" := PyStr self; "enclaveId" := PyNone ]}.

End Scenario.

(* ===================================================================== *)
(** * The [str] methods the client uses                                   *)
(* ===================================================================== *)

(** A [str] is held as the bytes of its UTF-8 encoding, so that a character
    outside ASCII takes two to four bytes; [bytes] are held as they are. *)

Module Str.

Definition newline : Ascii.ascii := Ascii.ascii_of_nat 10.
Definition comma : Ascii.ascii := Ascii.ascii_of_nat 44.

(** The ASCII whitespace characters: tab to carriage return, the four
    separators and the space. *)
Definition is_space (c : Ascii.ascii) : bool :=
  let n := Ascii.nat_of_ascii c in
  ((9 <=? n)%nat && (n <=? 13)%nat) || ((28 <=? n)%nat && (n <=? 32)%nat).

(** [s.lstrip(chars)] and [s.rstrip(chars)], [p] telling the characters to
    strip. *)
Fixpoint lstrip (p : Ascii.ascii → bool) (s : string) : string :=
  match s with
  | EmptyString => EmptyString
  | String a r => if p a then lstrip p r else s
  end.

Fixpoint rstrip (p : Ascii.ascii → bool) (s : string) : string :=
  match s with
  | EmptyString => EmptyString
  | String a r =>
      match rstrip p r with
      | EmptyString => if p a then EmptyString else String a EmptyString
      | r' => String a r'
      end
  end.

(** [s.strip(chars)] *)
Definition strip (p : Ascii.ascii → bool) (s : string) : string :=
  rstrip p (lstrip p s).

Definition byte (c : Ascii.ascii) : nat := Ascii.nat_of_ascii c.

Definition between (lo hi n : nat) : bool := (lo <=? n)%nat && (n <=? hi)%nat.

(** The rest of [s] after its first character when that character is
    whitespace ([c.isspace()]): an ASCII whitespace character, or one of
    U+0085, U+00A0 (two bytes), U+1680, U+2000 to U+200A, U+2028, U+2029,
    U+202F, U+205F and U+3000 (three bytes). *)
Definition space_prefix (s : string) : option string :=
  match s with
  | EmptyString => None
  | String a r =>
      if is_space a then Some r
      else
        match r with
        | EmptyString => None
        | String b r2 =>
            if (byte a =? 194)%nat then
              if (byte b =? 133)%nat || (byte b =? 160)%nat then Some r2 else None
            else
              match r2 with
              | EmptyString => None
              | String c r3 =>
                  if ((byte a =? 225)%nat && (byte b =? 154)%nat && (byte c =? 128)%nat)
                     || ((byte a =? 226)%nat && (byte b =? 128)%nat
                         && (between 128 138 (byte c) || (byte c =? 168)%nat
                             || (byte c =? 169)%nat || (byte c =? 175)%nat))
                     || ((byte a =? 226)%nat && (byte b =? 129)%nat && (byte c =? 159)%nat)
                     || ((byte a =? 227)%nat && (byte b =? 128)%nat && (byte c =? 128)%nat)
                  then Some r3 else None
              end
        end
  end.

(** [s.lstrip()]: the leading whitespace characters are removed one by one;
    the length of [s] bounds their number. *)
Fixpoint lstrip_whitespace_go (fuel : nat) (s : string) : string :=
  match fuel with
  | O => s
  | S fuel' =>
      match space_prefix s with
      | Some r => lstrip_whitespace_go fuel' r
      | None => s
      end
  end.

Definition lstrip_whitespace (s : string) : string :=
  lstrip_whitespace_go (String.length s) s.

(** [s.rstrip()]: the text is kept up to the point from which only
    whitespace follows. *)
Fixpoint rstrip_whitespace (s : string) : string :=
  match s with
  | EmptyString => EmptyString
  | String a r =>
      match lstrip_whitespace s with
      | EmptyString => EmptyString
      | _ => String a (rstrip_whitespace r)
      end
  end.

(** [s.strip()] *)
Definition strip_whitespace (s : string) : string :=
  rstrip_whitespace (lstrip_whitespace s).

(** Whether [s] is well-formed UTF-8: the shortest encoding of each
    character, no surrogate, nothing above U+10FFFF. *)
Fixpoint utf8_valid (s : string) : bool :=
  match s with
  | EmptyString => true
  | String a r =>
      if (byte a <? 128)%nat then utf8_valid r
      else
        match r with
        | EmptyString => false
        | String b r2 =>
            if between 194 223 (byte a) then
              between 128 191 (byte b) && utf8_valid r2
            else
              match r2 with
              | EmptyString => false
              | String c r3 =>
                  if between 224 239 (byte a) then
                    between (if (byte a =? 224)%nat then 160 else 128)
                            (if (byte a =? 237)%nat then 159 else 191) (byte b)
                    && between 128 191 (byte c) && utf8_valid r3
                  else
                    match r3 with
                    | EmptyString => false
                    | String d r4 =>
                        between 240 244 (byte a)
                        && between (if (byte a =? 240)%nat then 144 else 128)
                                   (if (byte a =? 244)%nat then 143 else 191) (byte b)
                        && between 128 191 (byte c) && between 128 191 (byte d)
                        && utf8_valid r4
                    end
              end
        end
  end.

(** [b.decode('utf-8')]: the text those bytes encode. *)
Definition decode_utf8 (b : string) : Result string :=
  if utf8_valid b then ret b else raise UnicodeDecodeError.

(** [s.split(c)] for a separator of one character. *)
Fixpoint split_on (c : Ascii.ascii) (s : string) : list string :=
  match s with
  | EmptyString => [EmptyString]
  | String a r =>
      if bool_decide (a = c) then EmptyString :: split_on c r
      else match split_on c r with
           | field :: fields => String a field :: fields
           | [] => [String a EmptyString]
           end
  end.

(** [c.join(fields)] *)
Fixpoint join (c : Ascii.ascii) (fields : list string) : string :=
  match fields with
  | [] => EmptyString
  | [field] => field
  | field :: rest => field +:+ String c (join c rest)
  end.

(** [s.split(sep)[0]] for a separator [sep] that is not empty: the part of
    [s] before the first occurrence of [sep], all of [s] when there is none. *)
Fixpoint before_first (sep s : string) : string :=
  if prefix_of sep s then EmptyString
  else match s with
       | EmptyString => EmptyString
       | String a r => String a (before_first sep r)
       end.

(** [c in s] for a character [c]. *)
Fixpoint occurs (c : Ascii.ascii) (s : string) : bool :=
  match s with
  | EmptyString => false
  | String a r => bool_decide (a = c) || occurs c r
  end.

(** Whether every character of [s] satisfies [p]. *)
Fixpoint all_chars (p : Ascii.ascii → bool) (s : string) : bool :=
  match s with
  | EmptyString => true
  | String a r => p a && all_chars p r
  end.

(** The first and the last character of a string. *)
Definition first_char (s : string) : option Ascii.ascii :=
  match s with
  | EmptyString => None
  | String a _ => Some a
  end.

Fixpoint last_char (s : string) : option Ascii.ascii :=
  match s with
  | EmptyString => None
  | String a EmptyString => Some a
  | String _ r => last_char r
  end.

(** Neither end of [s] is a character that [p] strips. *)
Definition ends_clean (p : Ascii.ascii → bool) (s : string) : Prop :=
  (∀ a, first_char s = Some a → p a = false) ∧
  (∀ a, last_char s = Some a → p a = false).

End Str.

(* ===================================================================== *)
(** * models/base.py: [__str__], [__repr__] and [from_dict]               *)
(* ===================================================================== *)

Module ModelBaseStr.

Section Rendering.
Context {Self : Type}.

(** The class, as in [ModelBase.Dispatch], and [json.dumps(d, indent=...)],
    which raises on a value that is not serializable. *)
Variable override : option (Self → bool → Result (gmap string PyValue)).
Variable json_dumps : gmap string PyValue → Z → Result string.

(** [ModelBase.__str__]: [json.dumps(self.to_dict(remove_nones=True), indent=2)] *)
Definition __str__ (depth : nat) (self : Self) : Result string :=
  match depth with
  | O => raise RecursionError
  | S depth' =>
      let* d := ModelBase.call_to_dict override depth' self true in
      json_dumps d 2
  end.

(** [ModelBase.__repr__]: [str(self)] *)
Definition __repr__ (depth : nat) (self : Self) : Result string :=
  match depth with
  | O => raise RecursionError
  | S depth' => __str__ depth' self
  end.

End Rendering.

(** [ModelBase.from_dict(d)] *)
Definition from_dict {Self : Type} (d : gmap string PyValue) : Result Self :=
  raise NotImplementedError.

End ModelBaseStr.

(* ===================================================================== *)
(** * trustar.py: the configuration file and the other endpoints          *)
(* ===================================================================== *)

Module Api.

Import TruStar.

Section Api.
Context {W PageObj G IG : Type} {env : Environment W PageObj G IG}.

Local Notation "'do*' x ':=' m 'in' k" := (io_bind m (λ x, k))
  (at level 10, x name, m at level 100, k at level 200).

(** ** [__init__], from the parsed configuration file to the dictionary *)

(** ensure that config file has indicated role: [roles] is the parsed file,
    a mapping from role names to sections, as [dict(config_parser)] gives it
    and as a JSON or YAML file of that shape does. *)
Definition role_config (roles : gmap string (gmap string PyValue))
    (config_role : string) : Result (gmap string PyValue) :=
  match roles !! config_role with
  | Some section => ret section
  | None => raise (KeyError ("Could not find role " +:+ config_role))
  end.

(** parse enclave ids *)
Definition parse_enclave_ids (config : gmap string PyValue)
    : Result (gmap string PyValue) :=
  match config !! "enclave_ids" with
  | Some ids =>
      (* if id has all numeric characters, will be parsed as an int, so convert to string *)
      let ids := match ids with
                 | PyInt _ | PyBool _ => PyStr (py_str ids)
                 | _ => ids
                 end in
      (* split comma separated list if necessary *)
      let* ids := match ids with
                  | PyStr s => ret (PyStr <$> Str.split_on Str.comma s)
                  | PyList l => ret l
                  | _ => raise (Exception
                           "'enclave_ids' must be a list or a comma-separated list")
                  end in
      (* strip out whitespace *)
      ret (<["enclave_ids" :=
               PyList ((λ x, PyStr (Str.strip_whitespace (py_str x)))
                         <$> filter (λ x, is_none x = false) ids)]> config)
  | None =>
      (* default to empty list *)
      ret (<["enclave_ids" := PyList []]> config)
  end.

(** [TruStar(config_file, config_role)] once the file has been parsed into
    [roles]. *)
Definition init_from_roles (roles : gmap string (gmap string PyValue))
    (config_role : string) : Result t :=
  let* config := role_config roles config_role in
  let* config := parse_enclave_ids config in
  __init__ config.

(** ** Requests *)

Definition __put (self : t) (path : string) (kwargs : gmap string PyValue) : IO Response :=
  __request self "PUT" path kwargs.

Definition __post (self : t) (path : string) (kwargs : gmap string PyValue) : IO Response :=
  __request self "POST" path kwargs.

Definition __delete (self : t) (path : string) (kwargs : gmap string PyValue) : IO Response :=
  __request self "DELETE" path kwargs.

(** Build direct URL to report from its ID.  ['https://api.trustar.co' in
    self.base] is a substring test on a string, a test on the elements of a
    list and on the keys of a mapping, and a [TypeError] on [None], a number
    or an instance of a class of the package; [self.base.split('/api/')] is
    an [AttributeError] on a list and on a mapping. *)
Definition get_report_url (self : t) (report_id : PyValue) : Result string :=
  (* Check environment for URL *)
  let* base_url :=
    match base self with
    | PyStr b =>
        if substring_of "https://api.trustar.co" b
        then ret "https://station.trustar.co"
        else ret (Str.before_first "/api/" b)
    | PyList l =>
        if existsb (λ x, eq_str x "https://api.trustar.co") l
        then ret "https://station.trustar.co"
        else raise AttributeError
    | PyDict d =>
        if bool_decide (is_Some (d !! "https://api.trustar.co"))
        then ret "https://station.trustar.co"
        else raise AttributeError
    | PyNone | PyBool _ | PyInt _ | PyObject _ _ => raise TypeError
    end in
  ret (base_url +:+ "/constellation/reports/" +:+ py_str report_id).

(** ** API endpoints *)

(** Ping the API.  The [content] of a response is the bytes of its body. *)
Definition ping (self : t) (kwargs : gmap string PyValue) : IO string :=
  do* resp := __get self "ping" kwargs in
  io_lift (let* text := Str.decode_utf8 (content resp) in
           ret (Str.strip (λ c, bool_decide (c = Str.newline)) text)).

Definition get_version (self : t) (kwargs : gmap string PyValue) : IO string :=
  do* resp := __get self "version" kwargs in
  io_lift (let* text := Str.decode_utf8 (content resp) in
           ret (Str.strip (λ c, bool_decide (c = Str.newline)) text)).

(** ** Report endpoints *)

Definition get_report_details (self : t) (report_id : PyValue)
    (kw : gmap string PyValue) : IO PyValue :=
  if kw_has ["report_id"] kw then io_lift (raise TypeError) else
  let id_type := dict_get kw "id_type" in
  let kwargs := delete "id_type" kw in
  let params : gmap string PyValue := {["idType" := id_type]} in
  do* kwargs := io_lift (kw_pass "params" (PyDict params) kwargs) in
  do* resp := __get self ("report/" +:+ py_str report_id) kwargs in
  io_lift (let* body := json resp in Report_from_dict body).

Definition delete_report (self : t) (report_id : PyValue)
    (kw : gmap string PyValue) : IO Response :=
  if kw_has ["report_id"] kw then io_lift (raise TypeError) else
  let id_type := dict_get kw "id_type" in
  let kwargs := delete "id_type" kw in
  let params : gmap string PyValue := {["idType" := id_type]} in
  do* kwargs := io_lift (kw_pass "params" (PyDict params) kwargs) in
  do* resp := __delete self ("report/" +:+ py_str report_id) kwargs in
  io_lift (ret resp).

Definition get_correlated_reports (self : t) (indicators : PyValue)
    (kw : gmap string PyValue) : IO PyValue :=
  if kw_has ["indicators"] kw then io_lift (raise TypeError) else
  let params : gmap string PyValue := {["indicators" := indicators]} in
  do* kwargs := io_lift (kw_pass "params" (PyDict params) kw) in
  do* resp := __get self "reports/correlate" kwargs in
  io_lift (json resp).

(** ** Indicator endpoints *)

Definition get_related_external_indicators (self : t) (kw : gmap string PyValue)
    : IO PyValue :=
  let indicators := dict_get kw "indicators" in
  let sources := dict_get kw "sources" in
  let kwargs := foldr delete kw ["indicators"; "sources"] in
  let params : gmap string PyValue :=
    list_to_map [("indicators", indicators); ("sources", sources)] in
  do* kwargs := io_lift (kw_pass "params" (PyDict params) kwargs) in
  do* resp := __get self "indicators/external/related" kwargs in
  io_lift (json resp).

(** ** Tag endpoints *)

Definition get_enclave_tags (self : t) (report_id : PyValue)
    (kw : gmap string PyValue) : IO PyValue :=
  if kw_has ["report_id"] kw then io_lift (raise TypeError) else
  let id_type := dict_get kw "id_type" in
  let kwargs := delete "id_type" kw in
  let params : gmap string PyValue := {["idType" := id_type]} in
  do* kwargs := io_lift (kw_pass "params" (PyDict params) kwargs) in
  do* resp := __get self ("reports/" +:+ py_str report_id +:+ "/enclave-tags") kwargs in
  io_lift (json resp).

Definition add_enclave_tag (self : t) (report_id name enclave_id : PyValue)
    (kw : gmap string PyValue) : IO PyValue :=
  if kw_has ["report_id"; "name"; "enclave_id"] kw then io_lift (raise TypeError) else
  let id_type := dict_get kw "id_type" in
  let kwargs := delete "id_type" kw in
  let params : gmap string PyValue :=
    list_to_map [("idType", id_type); ("name", name); ("enclaveId", enclave_id)] in
  do* kwargs := io_lift (kw_pass "params" (PyDict params) kwargs) in
  do* resp := __post self ("reports/" +:+ py_str report_id +:+ "/enclave-tags") kwargs in
  io_lift (json resp).

Definition delete_enclave_tag (self : t) (report_id name enclave_id : PyValue)
    (kw : gmap string PyValue) : IO string :=
  if kw_has ["report_id"; "name"; "enclave_id"] kw then io_lift (raise TypeError) else
  let id_type := dict_get kw "id_type" in
  let kwargs := delete "id_type" kw in
  let params : gmap string PyValue :=
    list_to_map [("idType", id_type); ("name", name); ("enclaveId", enclave_id)] in
  do* kwargs := io_lift (kw_pass "params" (PyDict params) kwargs) in
  do* resp := __delete self ("reports/" +:+ py_str report_id +:+ "/enclave-tags") kwargs in
  io_lift (Str.decode_utf8 (content resp)).

Definition get_all_enclave_tags (self : t) (kw : gmap string PyValue) : IO PyValue :=
  let enclave_ids := dict_get kw "enclave_ids" in
  let kwargs := delete "enclave_ids" kw in
  let params : gmap string PyValue := {["enclaveIds" := enclave_ids]} in
  do* kwargs := io_lift (kw_pass "params" (PyDict params) kwargs) in
  do* resp := __get self "enclave-tags" kwargs in
  io_lift (json resp).

(** What a call is observed to do when it does not get as far as its
    request: it raises [e] in the world [w1] the token request left, or it
    rejects its arguments in the world [w] it was called in. *)
Definition stops_before_request {A} (e : PyExc) (w w1 : W) (r : Result A * W) : Prop :=
  r = (raise e, w1) ∨ r = (raise TypeError, w) ∨ r = (raise AttributeError, w).

End Api.

End Api.

(* ===================================================================== *)
(** * Further scenarios                                                   *)
(* ===================================================================== *)

Module Cases.

(** A configuration file with one role, whose enclave ids are a
    comma-separated string. *)
Definition station_roles : gmap string (gmap string PyValue) :=
  {[ "trustar" := <["enclave_ids" := PyStr "a1, b2 "]> Scenario.station_config ]}.

(** The instance that file configures. *)
Definition station_client : TruStar.t :=
  TruStar.mk (PyStr "https://api.trustar.co/oauth/token")
    (PyStr "https://api.trustar.co/api/1.3-beta")
    (PyStr "key") (PyStr "secret") PyNone PyNone PyNone PyNone
    (PyList [PyStr "a1"; PyStr "b2"]).

(** The token request is refused. *)
Definition denied_response : TruStar.Response :=
  TruStar.mkResponse 401 (inr (PyDict ∅)) "{}".

Definition denied_error : PyExc :=
  HTTPError "401 Client Error: unable to get token" 401.

(** The answer of a network that gives the same response to the token
    request and to a ping. *)
Definition pong_response : TruStar.Response :=
  TruStar.mkResponse 200 (inr Scenario.token_body)
    ("pong" +:+ String Str.newline EmptyString).

(** The headers of [Scenario.client] with the token of [Scenario.ok_response]. *)
Definition token_headers : gmap string PyValue :=
  {[ "Authorization" := PyStr "Bearer tok" ]}.

End Cases.

(* ===================================================================== *)
(** * Properties of [ModelBase.to_dict]                                   *)
(* ===================================================================== *)

Lemma remove_nones_comprehension_lookup (d : gmap string PyValue) :
  ∀ k v, ModelBase.remove_nones_comprehension d !! k = Some v
         ↔ d !! k = Some v ∧ v ≠ PyNone.
Proof.
  unfold ModelBase.remove_nones_comprehension.
  apply (map_fold_weak_ind (λ r (m : gmap string PyValue),
           ∀ k v, r !! k = Some v ↔ m !! k = Some v ∧ v ≠ PyNone)).
  - intros k v. rewrite !lookup_empty.
    split; [discriminate|intros [? _]; discriminate].
  - intros i x m r Hfresh IH k v.
    destruct (decide (k = i)) as [->|Hne].
    + rewrite lookup_insert_eq. destruct (is_none x) eqn:Hx.
      * destruct x; try discriminate Hx.
        rewrite IH, Hfresh.
        split; [intros [? _]; discriminate|intros [[= <-] Hv]; contradiction].
      * rewrite lookup_insert_eq.
        split; [intros [= <-]; split; [done|intros ->; discriminate]|by intros [? _]].
    + rewrite (lookup_insert_ne m) by done.
      destruct (is_none x); [|rewrite lookup_insert_ne by done]; apply IH.
Qed.

Lemma call_to_dict_inherited {Self : Type} (depth : nat) (self : Self) :
  ModelBase.call_to_dict None (S depth) self false = raise NotImplementedError.
Proof. reflexivity. Qed.

(** C10, as amended.  On an instance of a subclass whose own [to_dict()]
    returns the dictionary [d]: a call [obj.to_dict(remove_nones)] is a call
    of the override and returns what the override returns; the method
    [ModelBase.to_dict] itself, as the override reaches it with
    [super().to_dict(remove_nones=True)], returns exactly the entries of [d]
    whose value is not [None]: a key is bound to [v] in the result iff it is
    bound to [v] in [d] and [v] is not [None].  On a class that does not
    override [to_dict], [to_dict()], which is [to_dict(remove_nones=False)],
    raises [NotImplementedError]. *)
Theorem to_dict_remove_nones {Self : Type}
    (f : Self → bool → Result (gmap string PyValue)) (self : Self)
    (d : gmap string PyValue) (depth : nat) :
  f self false = ret d →
  (∀ remove_nones,
     ModelBase.call_to_dict (Some f) (S depth) self remove_nones
       = f self remove_nones) ∧
  (∃ r, ModelBase.base_to_dict (Some f) (S depth) self true = ret r ∧
        ∀ k v, r !! k = Some v ↔ d !! k = Some v ∧ v ≠ PyNone) ∧
  ModelBase.call_to_dict None (S depth) self false = raise NotImplementedError.
Proof.
  intros Hd. split; [reflexivity|]. split; [|apply call_to_dict_inherited].
  exists (ModelBase.remove_nones_comprehension d). split.
  - unfold ModelBase.base_to_dict, ModelBase.to_dict. simpl. by rewrite Hd.
  - apply remove_nones_comprehension_lookup.
Qed.

Lemma to_dict_remove_nones_witness :
  (∀ remove_nones,
     ModelBase.call_to_dict (Some Scenario.tag_to_dict) 1 "malware" remove_nones
       = Scenario.tag_to_dict "malware" remove_nones) ∧
  (∃ r, ModelBase.base_to_dict (Some Scenario.tag_to_dict) 1 "malware" true = ret r ∧
        ∀ k v, r !! k = Some v
               ↔ ({[ "name" := PyStr "malware"; "enclaveId" := PyNone ]}
                    : gmap string PyValue) !! k = Some v ∧ v ≠ PyNone) ∧
  ModelBase.call_to_dict None 1 "malware" false = raise NotImplementedError.
Proof. apply (to_dict_remove_nones Scenario.tag_to_dict "malware" _ 0). reflexivity. Defined.

(** C10, as stated, fails: on a subclass whose override returns its
    dictionary whatever [remove_nones] is, [to_dict()] returns a dictionary
    with a [None] value and [to_dict(remove_nones=True)], which is a call of
    the override, returns that same dictionary, [None] value included. *)
Lemma to_dict_on_subclass_keeps_none :
  Scenario.tag_to_dict "malware" false
    = ret {[ "name" := PyStr "malware"; "enclaveId" := PyNone ]} ∧
  ∃ r, ModelBase.call_to_dict (Some Scenario.tag_to_dict) 1 "malware" true = ret r ∧
       r !! "enclaveId" = Some PyNone.
Proof. split; [reflexivity|]. eexists. split; reflexivity. Qed.

(* ===================================================================== *)
(** * Properties of the configuration step of [TruStar.__init__]          *)
(* ===================================================================== *)

Lemma remap_key_lookup (c : gmap string PyValue) (k v j : string) :
  TruStar.remap_key c (k, v) !! j =
    if decide (j = v) then from_option Some (c !! k) (c !! v) else c !! j.
Proof.
  unfold TruStar.remap_key; simpl.
  destruct (c !! k) as [x|] eqn:Hk, (c !! v) as [y|] eqn:Hv;
    case_decide; simplify_map_eq; done.
Qed.

Lemma remap_keys_canonical (config : gmap string PyValue) (k v : string) :
  (k, v) ∈ TruStar.REMAPPED_KEYS →
  TruStar.remap_keys config !! v = from_option Some (config !! k) (config !! v).
Proof.
  unfold TruStar.REMAPPED_KEYS, TruStar.remap_keys. intros Hin.
  repeat (apply elem_of_cons in Hin as [Hin|Hin]; [injection Hin as -> ->|]);
    [..|by apply elem_of_nil in Hin]; simpl;
    rewrite !remap_key_lookup; repeat (case_decide; try done).
Qed.

(** A string is not in a list of string literals that differ from it. *)
Ltac not_in_literal :=
  let H := fresh "Hin" in
  intros H;
  repeat (apply elem_of_cons in H as [H|H]; [discriminate H|]);
  by apply elem_of_nil in H.

Lemma foldl_remap_key_other (l : list (string * string))
    (c : gmap string PyValue) (j : string) :
  j ∉ l.*2 → foldl TruStar.remap_key c l !! j = c !! j.
Proof.
  revert c. induction l as [|[k v] l IH]; intros c Hj; simpl; [done|].
  simpl in Hj. apply not_elem_of_cons in Hj as [Hne Hj].
  rewrite IH by done. rewrite remap_key_lookup. by case_decide.
Qed.

Lemma remap_keys_other (config : gmap string PyValue) (j : string) :
  j ∉ TruStar.REQUIRED_KEYS → TruStar.remap_keys config !! j = config !! j.
Proof. intros Hj. by apply foldl_remap_key_other. Qed.

Lemma check_item_skips (c : gmap string PyValue) (key : string) (val : PyValue) :
  TruStar.check_item c key val = ret c.
Proof. unfold TruStar.check_item. destruct val; reflexivity. Qed.

Lemma check_items_skip (its : list (string * PyValue)) (c : gmap string PyValue) :
  TruStar.check_items its c = ret c.
Proof.
  revert c. induction its as [|[key val] its IH]; intros c; simpl; [done|].
  rewrite check_item_skips. simpl. apply IH.
Qed.

Lemma configure_is_remap (config : gmap string PyValue) :
  TruStar.configure config = ret (TruStar.remap_keys config).
Proof. unfold TruStar.configure. apply check_items_skip. Qed.

(** C8.  For every dictionary passed as [config], [__init__] returns an
    instance: the loop body leaves the dictionary as it is for every key and
    value, so the 'Missing config value' exception is never raised and no
    value of [DEFAULTS] is substituted, and the attributes with a default are
    the values the given dictionary has for them ([None] when absent or
    [None]). *)
Theorem init_never_checks_config (config : gmap string PyValue) :
  (∀ c key val, TruStar.check_item c key val = ret c) ∧
  (∀ key, TruStar.__init__ config
          ≠ raise (Exception ("Missing config value for " +:+ key))) ∧
  ∃ self, TruStar.__init__ config = ret self ∧
          self = TruStar.set_properties (TruStar.remap_keys config) ∧
          TruStar.client_type self = dict_get config "client_type" ∧
          TruStar.client_version self = dict_get config "client_version" ∧
          TruStar.client_metatag self = dict_get config "client_metatag" ∧
          TruStar.verify self = dict_get config "verify".
Proof.
  assert (Hinit : TruStar.__init__ config
                  = ret (TruStar.set_properties (TruStar.remap_keys config))).
  { unfold TruStar.__init__. by rewrite configure_is_remap. }
  split; [apply check_item_skips|]. split.
  - intros key. rewrite Hinit. discriminate.
  - eexists. split; [exact Hinit|]. split; [reflexivity|].
    unfold TruStar.set_properties, dict_get; simpl.
    rewrite !remap_keys_other; [done|..]; not_in_literal.
Qed.

(** C9.  For a pair of [REMAPPED_KEYS], remapped key [k] and canonical key
    [v]: when the dictionary has [v], the configured dictionary has the same
    value for [v], whether or not [k] is present; the value of [k] is copied
    to [v] only when [v] is absent. *)
Theorem remap_keeps_canonical (config : gmap string PyValue) (k v : string)
    (x y : PyValue) :
  (k, v) ∈ TruStar.REMAPPED_KEYS →
  config !! k = Some y →
  ∃ config', TruStar.configure config = ret config' ∧
             (config !! v = Some x → config' !! v = Some x) ∧
             (config !! v = None → config' !! v = Some y).
Proof.
  intros Hin Hk. exists (TruStar.remap_keys config).
  split; [apply configure_is_remap|].
  rewrite (remap_keys_canonical _ k v Hin), Hk.
  split; intros ->; reflexivity.
Qed.

Lemma remap_keeps_canonical_witness :
  ∃ config', TruStar.configure Scenario.station_config = ret config' ∧
             (Scenario.station_config !! "auth"
                = Some (PyStr "https://api.trustar.co/oauth/token") →
              config' !! "auth" = Some (PyStr "https://api.trustar.co/oauth/token")) ∧
             (Scenario.station_config !! "auth" = None →
              config' !! "auth" = Some (PyStr "https://other.example/oauth/token")).
Proof.
  apply (remap_keeps_canonical Scenario.station_config "auth_endpoint" "auth").
  - apply list_elem_of_here.
  - reflexivity.
Defined.

(* ===================================================================== *)
(** * Properties of the pagination engine                                 *)
(* ===================================================================== *)

Import Page.

(** C4.  For a page constructed from a response: when the response carries
    an explicit has-more flag, [hasNextPage] returns the flag; otherwise it
    is true exactly when [(pageNumber + 1) * pageSize < totalElements]. *)
Theorem hasNextPage_from_raw {T : Type} (r : RawPage T) (p : Page T) :
  from_raw r = inr p →
  match raw_hasMore r with
  | Some flag => hasNextPage p = flag
  | None => hasNextPage p = true ↔ (pageNumber p + 1) * pageSize p < totalElements p
  end.
Proof.
  unfold from_raw. intros Hp.
  destruct (required_field (raw_pageNumber r)) as [|pn]; [discriminate|].
  destruct (required_field (raw_pageSize r)) as [|ps]; [discriminate|].
  destruct (required_field (raw_totalElements r)) as [|total]; [discriminate|].
  injection Hp as <-. unfold hasNextPage. simpl.
  destruct (raw_hasMore r); [reflexivity|apply Z.ltb_lt].
Qed.

Lemma hasNextPage_from_raw_witness :
  from_raw Scenario.flagged = inr (mkPage [3; 4; 5] 1 3 7 false) ∧
  hasNextPage (mkPage [3; 4; 5] 1 3 7 false) = false.
Proof.
  split; [reflexivity|].
  apply (hasNextPage_from_raw Scenario.flagged). reflexivity.
Defined.

Section EngineFacts.
Context {T E W : Type}.
Implicit Types (g : PageGenerator T E W) (w : W) (p : Page T).


Lemma pull_exhausted g w : status g = Exhausted → pull g w = (Stop, g, w).
Proof. intros H. unfold pull. by rewrite H. Qed.

Lemma pull_failed g w e : status g = Failed e → pull g w = (Raise e, g, w).
Proof. intros H. unfold pull. by rewrite H. Qed.

Lemma pulls_exhausted m g w :
  status g = Exhausted → pulls m g w = (replicate m Stop, g, w).
Proof.
  intros H. induction m as [|m IH]; simpl; [done|].
  by rewrite pull_exhausted, IH.
Qed.

Lemma pulls_failed m g w e :
  status g = Failed e → pulls m g w = (replicate m (Raise e), g, w).
Proof.
  intros H. induction m as [|m IH]; simpl; [done|].
  by rewrite (pull_failed _ _ e), IH.
Qed.

Lemma pulls_snoc n g w :
  pulls (S n) g w =
    let '(os, g1, w1) := pulls n g w in
    let '(o, g2, w2) := pull g1 w1 in
    (os ++ [o], g2, w2).
Proof.
  revert g w. induction n as [|n IH]; intros g w.
  - simpl. by destruct (pull g w) as [[o g'] w'].
  - change (pulls (S (S n)) g w) with
      (let '(o, g', w') := pull g w in
       let '(os, g'', w'') := pulls (S n) g' w' in (o :: os, g'', w'')).
    destruct (pull g w) as [[o g'] w'] eqn:Hp.
    rewrite IH. simpl. rewrite Hp.
    destruct (pulls n g' w') as [[os g1] w1].
    by destruct (pull g1 w1) as [[o' g2] w2].
Qed.

(** The state of a generator whose first pulls all yielded pages. *)
Lemma pulls_yield_state (pages : list (Page T)) g0 w0 n g w :
  status g0 = Ready n →
  pulls (length pages) g0 w0 = (Yield <$> pages, g, w) →
  fetchFn g = fetchFn g0 ∧ size g = size g0 ∧
  requested g = requested g0 ++ seqZ n (Z.of_nat (length pages)) ∧
  ((Forall (λ q, hasNextPage q = true) pages ∧
    status g = Ready (n + Z.of_nat (length pages))) ∨
   (∃ pre p, pages = pre ++ [p] ∧ Forall (λ q, hasNextPage q = true) pre ∧
             hasNextPage p = false ∧ status g = Exhausted)).
Proof.
  intros Hst. revert g w.
  induction pages as [|p pre IH] using rev_ind; intros g w Hrun.
  - simpl in Hrun. injection Hrun as <- <-.
    rewrite app_nil_r, Z.add_0_r. repeat split; auto.
  - rewrite length_app in Hrun. simpl in Hrun.
    rewrite Nat.add_1_r, pulls_snoc in Hrun.
    destruct (pulls (length pre) g0 w0) as [[os g1] w1] eqn:Hpre.
    destruct (pull g1 w1) as [[o g2] w2] eqn:Hpull.
    rewrite fmap_app in Hrun. simpl in Hrun.
    injection Hrun as Hos <- <-.
    apply app_inj_tail in Hos as [-> ->].
    destruct (IH _ _ eq_refl) as (Hf & Hs & Hreq & Hcase).
    destruct Hcase as [[Hall Hready] | (pre' & q & _ & _ & _ & Hex)].
    2:{ rewrite pull_exhausted in Hpull by done. discriminate. }
    unfold pull in Hpull. rewrite Hready in Hpull.
    destruct (fetchFn g1 _ (size g1) w1) as [[e|p'] w'] eqn:Hfetch;
      injection Hpull as Ho <- <-; [discriminate|].
    subst p'. simpl.
    rewrite length_app, Hreq. simpl.
    rewrite Nat.add_1_r, seqZ_S, app_assoc.
    repeat split; auto.
    destruct (hasNextPage p) eqn:Hnext.
    + left. split; [apply Forall_app; by repeat constructor|].
      f_equal. lia.
    + right. by exists pre, p.
Qed.


Lemma run_pages_of_pulls (pages : list (Page T)) g0 w0 g w extra :
  pulls (length pages) g0 w0 = (Yield <$> pages, g, w) →
  status g = Exhausted →
  run_pages (S (length pages) + extra) g0 w0 = (pages, Finished, g, w).
Proof.
  revert g0 w0. induction pages as [|p pages IH]; intros g0 w0 Hrun Hex.
  - simpl in Hrun. injection Hrun as <- <-.
    simpl. by rewrite pull_exhausted.
  - simpl in Hrun.
    destruct (pull g0 w0) as [[o g1] w1] eqn:Hpull.
    destruct (pulls (length pages) g1 w1) as [[os g2] w2] eqn:Hrest.
    injection Hrun as -> -> -> ->.
    change (run_pages (S (length (p :: pages)) + extra) g0 w0) with
      (let '(o, g', w') := pull g0 w0 in
       match o with
       | Yield p =>
           let '(ps, e, g'', w'') := run_pages (S (length pages) + extra) g' w' in
           (p :: ps, e, g'', w'')
       | Stop => ([], Finished, g', w')
       | Raise e => ([], Errored e, g', w')
       end).
    rewrite Hpull. by rewrite (IH _ _ Hrest Hex).
Qed.

(** C2.  For every fetch function, start page and page size: when the first
    pulls of a page generator have yielded the pages [pre ++ [p]] and [p] has
    no next page, then [p] is the first such page, the fetch function has been
    invoked exactly for the page numbers [start .. start + length pre], every
    further pull ends the sequence without invoking it again (generator and
    world stay as they are), and a run of the generator gives exactly these
    pages and finishes. *)
Theorem page_sequence_ends_at_last_page
    (func : PageFetchFunction T E W) (start : Z) (page_size : option Z) w0
    (pre : list (Page T)) p g w :
  pulls (S (length pre)) (get_page_generator func start page_size) w0
    = (Yield <$> (pre ++ [p]), g, w) →
  hasNextPage p = false →
  Forall (λ q, hasNextPage q = true) pre ∧
  requested g = seqZ start (Z.of_nat (S (length pre))) ∧
  (∀ m, pulls m g w = (replicate m Stop, g, w)) ∧
  (∀ extra, run_pages (S (S (length pre)) + extra)
              (get_page_generator func start page_size) w0
            = (pre ++ [p], Finished, g, w)).
Proof.
  intros Hrun Hlast.
  assert (Hlen : length (pre ++ [p]) = S (length pre))
    by (rewrite length_app; simpl; lia).
  rewrite <- Hlen in Hrun.
  destruct (pulls_yield_state _ (get_page_generator func start page_size) _ start _ _ eq_refl Hrun)
    as (_ & _ & Hreq & [[Hall _] | (pre' & q & Heq & Hall & _ & Hex)]).
  { apply Forall_app in Hall as [_ Hp]. inversion Hp; congruence. }
  apply app_inj_tail in Heq as [<- <-].
  rewrite Hlen in Hreq. simpl in Hreq.
  repeat split; auto.
  - intros m. by apply pulls_exhausted.
  - intros extra. rewrite <- Hlen. by apply run_pages_of_pulls.
Qed.

(** C3.  When the pages before page [k = start + length pages] have been
    yielded and the fetch of page [k] fails with [e], the pull of page [k]
    raises that same [e] after a single invocation of the fetch function for
    [k]; the outcomes of the earlier pulls are the pages as before; and from
    then on every pull raises [e] again, without a fetch and without a page. *)
Theorem fetch_failure_surfaces
    (func : PageFetchFunction T E W) (start : Z) (page_size : option Z) w0
    (pages : list (Page T)) g w (e : E) w' :
  pulls (length pages) (get_page_generator func start page_size) w0
    = (Yield <$> pages, g, w) →
  Forall (λ q, hasNextPage q = true) pages →
  func (start + Z.of_nat (length pages)) page_size w = (inl e, w') →
  ∃ g', pull g w = (Raise e, g', w') ∧
        pulls (S (length pages)) (get_page_generator func start page_size) w0
          = ((Yield <$> pages) ++ [Raise e], g', w') ∧
        requested g' = seqZ start (Z.of_nat (S (length pages))) ∧
        status g' = Failed e ∧
        ∀ m, pulls m g' w' = (replicate m (Raise e), g', w').
Proof.
  intros Hrun Hall Hfail.
  destruct (pulls_yield_state _ (get_page_generator func start page_size) _ start _ _ eq_refl Hrun)
    as (Hf & Hs & Hreq & [[_ Hready] | (pre & q & -> & _ & Hq & _)]).
  2:{ apply Forall_app in Hall as [_ Hp]. inversion Hp; congruence. }
  simpl in Hf, Hs, Hreq.
  eexists. split; [|split; [|split; [|split]]].
  - unfold pull. rewrite Hready, Hf, Hs, Hfail. reflexivity.
  - rewrite pulls_snoc, Hrun. unfold pull. rewrite Hready, Hf, Hs, Hfail. reflexivity.
  - simpl. rewrite Hreq. by rewrite seqZ_S.
  - reflexivity.
  - intros m. by apply pulls_failed.
Qed.

(** A run that finishes has yielded at least one page. *)
Lemma finished_run_has_a_page (func : PageFetchFunction T E W) start page_size
    w fuel (pages : list (Page T)) g w' :
  run_pages fuel (get_page_generator func start page_size) w
    = (pages, Finished, g, w') →
  pages ≠ [].
Proof.
  destruct fuel as [|fuel]; simpl; [discriminate|].
  unfold pull at 1. simpl.
  destruct (func start page_size w) as [[e|p] w1]; [discriminate|].
  destruct (run_pages fuel _ w1) as [[[ps e] g1] w2].
  intros [= <- _ _ _]. discriminate.
Qed.

Lemma first_page_last (func : PageFetchFunction T E W) start page_size w p w' extra :
  func start page_size w = (inr p, w') →
  hasNextPage p = false →
  ∃ g, run_pages (2 + extra) (get_page_generator func start page_size) w
         = ([p], Finished, g, w') ∧ requested g = [start].
Proof.
  intros Hf Hp. eexists. simpl. unfold pull at 1. simpl. rewrite Hf, Hp.
  destruct extra; simpl; eauto.
Qed.

End EngineFacts.
Section DatasetFacts.
Context {T W : Type}.
Implicit Types (data : list T) (w : W).

Lemma serve_page data (default_size : Z) (page_size : option Z) (n s : nat) w :
  default default_size page_size = Z.of_nat s →
  serve data default_size (Z.of_nat n) page_size w =
    (inr {| items := take s (drop (n * s) data);
            pageNumber := Z.of_nat n;
            pageSize := Z.of_nat s;
            totalElements := Z.of_nat (length data);
            hasMore := (Z.of_nat n + 1) * Z.of_nat s <? Z.of_nat (length data) |}, w).
Proof.
  intros Hs. unfold serve, from_raw, required_field. cbn [raw_pageNumber raw_pageSize raw_totalElements raw_items raw_hasMore].
  rewrite Hs.
  rewrite !(proj2 (Z.leb_le 0 _)) by lia.
  rewrite <- Nat2Z.inj_mul, !Nat2Z.id. reflexivity.
Qed.

Lemma run_items_pending {E} (xs : list T) (pg : PageGenerator T E W) w fuel :
  run_items (length xs + fuel) {| page_generator := pg; pending := xs |} w =
    let '(ys, e, ig, w') := run_items fuel {| page_generator := pg; pending := [] |} w in
    (xs ++ ys, e, ig, w').
Proof.
  induction xs as [|x xs IH].
  - simpl. by destruct (run_items fuel _ w) as [[[ys e] ig] w'].
  - cbn [length Nat.add run_items item_step pending page_generator].
    rewrite IH.
    by destruct (run_items fuel _ w) as [[[ys e] ig] w'].
Qed.

Lemma run_items_serve data (default_size : Z) (page_size : option Z) (s : nat) w :
  default default_size page_size = Z.of_nat s →
  (0 < s)%nat →
  ∀ (k n : nat) req (fuel : nat),
    (length (drop (n * s) data) ≤ k)%nat →
    (2 * length (drop (n * s) data) + 2 ≤ fuel)%nat →
    ∃ ig, run_items fuel
            {| page_generator :=
                 {| fetchFn := serve data default_size; size := page_size;
                    status := Ready (Z.of_nat n); requested := req |};
               pending := [] |} w
          = (drop (n * s) data, Finished, ig, w).
Proof.
  intros Hs Hpos k.
  induction k as [|k IH]; intros n req fuel Hk Hfuel.
  all: destruct fuel as [|fuel]; [lia|].
  all: cbn [run_items item_step pending page_generator].
  all: unfold pull; cbn [status fetchFn size requested].
  all: rewrite (serve_page _ _ _ n s) by done.
  all: cbn [hasNextPage hasMore items].
  all: set (r := drop (n * s) data) in *.
  all: destruct (Z.ltb_spec ((Z.of_nat n + 1) * Z.of_nat s) (Z.of_nat (length data))) as [Hmore|Hlast].
  all: assert (Hr : length r = (length data - n * s)%nat) by (subst r; apply length_drop).
  all: try (exfalso; nia).
  - (* no remaining item, last page *)
    assert (r = []) as -> by (apply length_zero_iff_nil; lia).
    rewrite take_nil. destruct fuel as [|fuel]; [simpl in *; lia|].
    simpl. eauto.
  - (* a further page follows *)
    assert (Hlen : length (take s r) = s) by (rewrite length_take; nia).
    replace fuel with (length (take s r) + (fuel - s))%nat by lia.
    rewrite run_items_pending.
    replace (Z.of_nat n + 1) with (Z.of_nat (S n)) by lia.
    assert (Hdrop : drop (S n * s) data = drop s r).
    { subst r. rewrite drop_drop. f_equal. lia. }
    destruct (IH (S n) (req ++ [Z.of_nat n]) (fuel - s)%nat) as [ig Hig].
    + rewrite Hdrop, length_drop. nia.
    + rewrite Hdrop, length_drop. nia.
    + rewrite Hig, Hdrop, take_drop. eauto.
  - (* the last page *)
    assert (Htake : take s r = r) by (apply take_ge; nia).
    rewrite Htake.
    replace fuel with (length r + (fuel - length r))%nat by lia.
    rewrite run_items_pending.
    destruct (fuel - length r)%nat as [|f] eqn:Hf; [lia|].
    simpl. rewrite app_nil_r. eauto.
Qed.

(** C1.  For every dataset and every page size [s > 0] in effect (the one
    requested, or the server's default), the item generator wrapped around the
    page generator over the dataset yields exactly the items of the dataset,
    in their order, and finishes, whether or not [s] divides their number. *)
Theorem item_generator_yields_dataset data (default_size : Z) (page_size : option Z) w (fuel : nat) :
  0 < default default_size page_size →
  (2 * length data + 2 ≤ fuel)%nat →
  ∃ ig, run_items fuel
          (get_generator (get_page_generator (serve data default_size) 0 page_size)) w
        = (data, Finished, ig, w).
Proof.
  intros Hpos Hfuel.
  set (s := Z.to_nat (default default_size page_size)).
  assert (Hs : default default_size page_size = Z.of_nat s) by lia.
  assert (Hs' : (0 < s)%nat) by lia.
  pose proof (run_items_serve data default_size page_size s w Hs Hs'
                (length data) 0%nat [] fuel) as Hrun.
  rewrite Nat.mul_0_l, drop_0 in Hrun.
  destruct Hrun as [ig Hig]; [lia|lia|]. eauto.
Qed.

(** C5.  Over the empty dataset the page generator yields exactly one page,
    whose items are empty and which has no next page, and the item generator
    yields no item. *)
Theorem empty_dataset_one_page (default_size : Z) (page_size : option Z) w (extra : nat) :
  0 ≤ default default_size page_size →
  (∃ p g, run_pages (2 + extra)
            (get_page_generator (serve (@nil T) default_size) 0 page_size) w
          = ([p], Finished, g, w) ∧ items p = [] ∧ hasNextPage p = false) ∧
  (∃ ig, run_items (2 + extra)
           (get_generator (get_page_generator (serve (@nil T) default_size) 0 page_size)) w
         = ([], Finished, ig, w)).
Proof.
  intros Hs.
  set (s := Z.to_nat (default default_size page_size)).
  assert (Hs' : default default_size page_size = Z.of_nat s) by lia.
  pose proof (serve_page (@nil T) default_size page_size 0 s w Hs') as Hp.
  rewrite drop_nil, take_nil in Hp. simpl in Hp.
  split.
  - destruct (first_page_last (E:=PageError) (serve (@nil T) default_size)
                0 page_size w _ w extra Hp) as (g & Hg & _).
    { cbn [hasNextPage hasMore]. apply Z.ltb_ge. lia. }
    eexists _, g. split; [exact Hg|]. split; [reflexivity|].
    cbn [hasNextPage hasMore]. apply Z.ltb_ge. lia.
  - cbn [Nat.add run_items item_step get_generator pending page_generator].
    unfold pull. cbn [get_page_generator status fetchFn size requested].
    change (Z.of_nat 0) with 0 in Hp. rewrite Hp.
    cbn [hasNextPage hasMore items].
    rewrite (proj2 (Z.ltb_ge _ _)) by lia.
    destruct extra; simpl; eauto.
Qed.

End DatasetFacts.

Lemma page_sequence_ends_at_last_page_witness :
  pulls 3 Scenario.seven_generator tt
    = (Yield <$> Scenario.seven_pages, Scenario.seven_exhausted, tt) ∧
  requested Scenario.seven_exhausted = [0; 1; 2] ∧
  (∀ m, pulls m Scenario.seven_exhausted tt
        = (replicate m Stop, Scenario.seven_exhausted, tt)) ∧
  (∀ extra, run_pages (4 + extra) Scenario.seven_generator tt
            = (Scenario.seven_pages, Finished, Scenario.seven_exhausted, tt)).
Proof.
  assert (H : pulls 3 Scenario.seven_generator tt
              = (Yield <$> Scenario.seven_pages, Scenario.seven_exhausted, tt))
    by reflexivity.
  split; [exact H|].
  apply (page_sequence_ends_at_last_page (Page.serve Scenario.seven 3) 0 None tt
           [mkPage [0; 1; 2] 0 3 7 true; mkPage [3; 4; 5] 1 3 7 true]
           (mkPage [6] 2 3 7 false) _ tt H).
  reflexivity.
Defined.

Lemma fetch_failure_surfaces_witness :
  ∃ g', pull Scenario.flaky_ready tt = (Raise "network error", g', tt) ∧
        pulls 3 Scenario.flaky_generator tt
          = ((Yield <$> take 2 Scenario.seven_pages) ++ [Raise "network error"], g', tt) ∧
        requested g' = [0; 1; 2] ∧
        status g' = Failed "network error" ∧
        ∀ m, pulls m g' tt = (replicate m (Raise "network error"), g', tt).
Proof.
  apply (fetch_failure_surfaces (Scenario.flaky Scenario.seven 3 2) 0 None tt
           (take 2 Scenario.seven_pages) Scenario.flaky_ready tt "network error" tt).
  - reflexivity.
  - repeat constructor.
  - reflexivity.
Defined.

Lemma item_generator_yields_dataset_witness :
  ∃ ig, run_items 16
          (get_generator (get_page_generator (serve Scenario.seven 3) 0 None)) tt
        = (Scenario.seven, Finished, ig, tt).
Proof.
  apply (item_generator_yields_dataset Scenario.seven 3 None tt 16).
  - reflexivity.
  - simpl. lia.
Defined.

Lemma empty_dataset_one_page_witness :
  (∃ p g, run_pages 2 (get_page_generator (serve (@nil Z) 3) 0 None) tt
          = ([p], Finished, g, tt) ∧ items p = [] ∧ hasNextPage p = false) ∧
  (∃ ig, run_items 2 (get_generator (get_page_generator (serve (@nil Z) 3) 0 None)) tt
         = ([], Finished, ig, tt)).
Proof.
  apply (empty_dataset_one_page (T:=Z) 3 None tt 0). simpl. lia.
Defined.

(* ===================================================================== *)
(** * Properties of the client                                            *)
(* ===================================================================== *)

Section ClientFacts.
Context {W PageObj G IG : Type} {env : TruStar.Environment W PageObj G IG}.
Import TruStar.

Lemma rest_of_id (kw : gmap string PyValue) :
  kw !! "start_page" = None → kw !! "page_size" = None → rest_of kw = kw.
Proof.
  intros Hstart Hsize. unfold rest_of.
  rewrite (delete_id kw "page_size") by done. by apply delete_id.
Qed.

(** C6.  When the caller gives neither [start_page] nor [page_size], each of
    [get_report_page_generator], [get_community_trends_page_generator] and
    [get_related_indicators_page_generator] passes the start page [0] and the
    page size [None] to [Page.get_page_generator], together with the closure
    around its endpoint method. *)
Theorem page_generator_defaults (self : t) (kw : gmap string PyValue) :
  kw !! "start_page" = None →
  kw !! "page_size" = None →
  get_report_page_generator self kw
    = Page_get_page_generator (page_func (get_reports self) kw) (PyInt 0) PyNone ∧
  get_community_trends_page_generator self kw
    = Page_get_page_generator (page_func (get_community_trends self) kw) (PyInt 0) PyNone ∧
  get_related_indicators_page_generator self kw
    = Page_get_page_generator (page_func (get_related_indicators self) kw) (PyInt 0) PyNone.
Proof.
  intros Hstart Hsize.
  unfold get_report_page_generator, get_community_trends_page_generator,
    get_related_indicators_page_generator, start_page_of, page_size_of.
  rewrite Hstart, Hsize, rest_of_id by done. auto.
Qed.

(** C7, as amended.  When the token request is answered by [response]:
    [__get_token] raises [HTTPError] when the status code is in 400..599, and
    for every other status code it is [response.json()["access_token"]]; in
    particular it returns the token whenever the body has one. *)
Theorem get_token_by_status (self : t) (w : W) (response : Response) (w' : W) :
  requests_post (auth self) (api_key self, api_secret self)
    {["grant_type" := PyStr "client_credentials"]} w = (inr response, w') →
  (400 ≤ status_code response < 600 →
     __get_token self w
       = (raise (HTTPError (error_message (status_code response) "unable to get token")
                           (status_code response)), w')) ∧
  (¬ (400 ≤ status_code response < 600) →
     __get_token self w
       = ((let* body := json response in subscript body "access_token"), w') ∧
     ∀ d token, json response = ret (PyDict d) → d !! "access_token" = Some token →
                __get_token self w = (ret token, w')).
Proof.
  intros Hpost. unfold __get_token, io_bind. rewrite Hpost. split.
  - intros [Hlo Hhi].
    rewrite (proj2 (Z.leb_le _ _) Hlo), (proj2 (Z.ltb_lt _ _) Hhi). reflexivity.
  - intros Hout.
    assert ((400 <=? status_code response) && (status_code response <? 600) = false)
      as ->.
    { apply andb_false_iff.
      destruct (Z.leb_spec 400 (status_code response)); [right|by left].
      apply Z.ltb_ge. lia. }
    split; [reflexivity|].
    intros d token Hbody Htok. unfold io_lift. rewrite Hbody. simpl.
    unfold dict_item. by rewrite Htok.
Qed.

End ClientFacts.

Lemma page_generator_defaults_witness :
  TruStar.get_report_page_generator (env := Scenario.answering Scenario.ok_response)
      Scenario.client ∅ = (PyInt 0, PyNone) ∧
  TruStar.get_community_trends_page_generator (env := Scenario.answering Scenario.ok_response)
      Scenario.client ∅ = (PyInt 0, PyNone) ∧
  TruStar.get_related_indicators_page_generator (env := Scenario.answering Scenario.ok_response)
      Scenario.client ∅ = (PyInt 0, PyNone).
Proof.
  exact (page_generator_defaults (env := Scenario.answering Scenario.ok_response)
           Scenario.client ∅ eq_refl eq_refl).
Defined.

(** C7, as stated, fails: a response with status 302, which is not a 2xx
    status, whose body carries a token makes [__get_token] return the token. *)
Lemma get_token_redirect_returns_token :
  ¬ (200 ≤ TruStar.status_code Scenario.redirect_response < 300) ∧
  TruStar.__get_token (env := Scenario.answering Scenario.redirect_response)
      Scenario.client tt
    = (ret (PyStr "tok"), tt).
Proof. split; [simpl; lia|reflexivity]. Qed.

Lemma get_token_by_status_witness :
  ¬ (400 ≤ TruStar.status_code Scenario.ok_response < 600) ∧
  TruStar.__get_token (env := Scenario.answering Scenario.ok_response)
      Scenario.client tt
    = (ret (PyStr "tok"), tt).
Proof.
  assert (Hout : ¬ (400 ≤ TruStar.status_code Scenario.ok_response < 600))
    by (simpl; lia).
  split; [exact Hout|].
  destruct (get_token_by_status (env := Scenario.answering Scenario.ok_response)
              Scenario.client tt Scenario.ok_response tt eq_refl) as [_ Hother].
  destruct (Hother Hout) as [_ Htoken].
  apply (Htoken {["access_token" := PyStr "tok"]} (PyStr "tok")); reflexivity.
Defined.

Example first_item_needs_first_page :
  (λ r, r.1.1) <$> next_item 2 (get_generator Scenario.seven_generator) tt
    = Some (Yield 0).
Proof. reflexivity. Qed.

(** The scenarios of the engine, evaluated. *)
Example seven_items_in_three_pages :
  (run_pages 4 Scenario.seven_generator tt).1.1 = (Scenario.seven_pages, Finished) ∧
  (run_items 11 (get_generator Scenario.seven_generator) tt).1.1
    = (Scenario.seven, Finished).
Proof. split; reflexivity. Qed.

Example error_on_third_page :
  (run_items 9 (get_generator Scenario.flaky_generator) tt).1.1
    = ([0; 1; 2; 3; 4; 5], Errored "network error").
Proof. reflexivity. Qed.

(** A configuration whose [auth] is [None] and that has no [client_type]. *)
Example init_with_missing_values :
  TruStar.__init__ {[ "auth" := PyNone; "base" := PyStr "https://api.trustar.co" ]}
    = ret (TruStar.mk PyNone (PyStr "https://api.trustar.co")
             PyNone PyNone PyNone PyNone PyNone PyNone PyNone).
Proof. reflexivity. Qed.

(* ===================================================================== *)
(** * Properties of the [str] methods                                     *)
(* ===================================================================== *)

Section StrFacts.
Import Str.
Implicit Types (p : Ascii.ascii → bool) (s r t sep : string) (a c : Ascii.ascii).

Lemma str_app_cons a s r : String a s +:+ r = String a (s +:+ r).
Proof. reflexivity. Qed.

Lemma str_app_nil_l s : EmptyString +:+ s = s.
Proof. reflexivity. Qed.

Lemma str_app_assoc s r t : String.append (s +:+ r) t = s +:+ (r +:+ t).
Proof.
  induction s as [|a s IH]; [done|]. rewrite !str_app_cons. by f_equal.
Qed.

Lemma prefix_of_app sep r : prefix_of sep (sep +:+ r) = true.
Proof.
  induction sep as [|a sep IH]; simpl; [done|].
  by rewrite bool_decide_eq_true_2, IH.
Qed.

Lemma prefix_of_split sep s : prefix_of sep s = true → ∃ r, s = sep +:+ r.
Proof.
  revert s. induction sep as [|a sep IH]; intros s Hp; simpl in *.
  - by exists s.
  - destruct s as [|b s]; [discriminate|].
    apply andb_true_iff in Hp as [Hab Hp].
    apply bool_decide_eq_true_1 in Hab as ->.
    destruct (IH _ Hp) as [r ->]. by exists r.
Qed.

Lemma prefix_of_extend sep s r : prefix_of sep s = true → prefix_of sep (s +:+ r) = true.
Proof.
  intros Hp. destruct (prefix_of_split _ _ Hp) as [t ->].
  rewrite str_app_assoc. apply prefix_of_app.
Qed.

Lemma lstrip_first p s a : first_char (lstrip p s) = Some a → p a = false.
Proof.
  induction s as [|b s IH]; simpl; [discriminate|].
  destruct (p b) eqn:Hb; [done|]. simpl. by intros [= <-].
Qed.

Lemma rstrip_keeps_first p s a :
  first_char (rstrip p s) = Some a → first_char s = Some a.
Proof.
  destruct s as [|b s]; simpl; [done|].
  destruct (rstrip p s); [destruct (p b)|]; simpl; done.
Qed.

Lemma rstrip_last p s a : last_char (rstrip p s) = Some a → p a = false.
Proof.
  induction s as [|b s IH]; simpl; [discriminate|].
  destruct (rstrip p s) as [|c t] eqn:Hr.
  - destruct (p b) eqn:Hb; simpl; [discriminate|]. by intros [= <-].
  - intros Hl. apply IH. exact Hl.
Qed.

Lemma lstrip_id p s :
  (∀ a, first_char s = Some a → p a = false) → lstrip p s = s.
Proof.
  destruct s as [|b s]; simpl; [done|]. intros H. by rewrite (H b eq_refl).
Qed.

Lemma rstrip_id p s :
  (∀ a, last_char s = Some a → p a = false) → rstrip p s = s.
Proof.
  induction s as [|b s IH]; simpl; [done|]. intros H.
  destruct s as [|c s].
  - simpl. by rewrite (H b eq_refl).
  - rewrite IH by exact H. done.
Qed.

(** The ends of a stripped string are not among the stripped characters, and
    stripping changes nothing when they already are not. *)
Lemma strip_ends p s : ends_clean p (strip p s).
Proof.
  unfold ends_clean, strip. split; intros a Ha.
  - apply rstrip_keeps_first in Ha. by apply lstrip_first in Ha.
  - by apply rstrip_last in Ha.
Qed.

Lemma strip_id p s : ends_clean p s → strip p s = s.
Proof. intros [Hf Hl]. unfold strip. rewrite lstrip_id by done. by apply rstrip_id. Qed.











Lemma before_first_shortest sep s t r :
  s = t +:+ sep +:+ r →
  (String.length (before_first sep s) ≤ String.length t)%nat.
Proof.
  revert t. induction s as [|a s IH]; intros t Hs.
  - simpl. destruct (prefix_of sep EmptyString); simpl; lia.
  - cbn [before_first].
    destruct (prefix_of sep (String a s)) eqn:Hp; [simpl; lia|].
    destruct t as [|b t].
    + rewrite str_app_nil_l in Hs. rewrite Hs, prefix_of_app in Hp. discriminate.
    + rewrite str_app_cons in Hs. injection Hs as -> Hs.
      simpl. apply IH in Hs. lia.
Qed.

Lemma lstrip_split p s : ∃ l, s = l +:+ lstrip p s ∧ all_chars p l = true.
Proof.
  induction s as [|a s (l & Hl & Hp)]; simpl; [by exists EmptyString|].
  destruct (p a) eqn:Ha.
  - exists (String a l). rewrite str_app_cons. split; [by f_equal|].
    simpl. by rewrite Ha.
  - by exists EmptyString.
Qed.

Lemma rstrip_split p s : ∃ r, s = rstrip p s +:+ r ∧ all_chars p r = true.
Proof.
  induction s as [|a s (r & Hr & Hp)]; simpl; [by exists EmptyString|].
  destruct (rstrip p s) as [|b t] eqn:Hs.
  - destruct (p a) eqn:Ha.
    + exists (String a r). rewrite str_app_nil_l in *. split; [by f_equal|].
      simpl. by rewrite Ha.
    + exists r. rewrite str_app_nil_l in Hr. by subst r.
  - exists r. rewrite str_app_cons. split; [by f_equal|done].
Qed.

(** A string is its stripped part between two runs of stripped characters. *)
Lemma strip_split p s :
  ∃ l r, s = l +:+ strip p s +:+ r ∧ all_chars p l = true ∧ all_chars p r = true.
Proof.
  destruct (lstrip_split p s) as (l & Hl & Hpl).
  destruct (rstrip_split p (lstrip p s)) as (r & Hr & Hpr).
  exists l, r. unfold strip. by rewrite <- Hr.
Qed.

Lemma split_on_cons c s : ∃ field fields, split_on c s = field :: fields.
Proof.
  induction s as [|a s (f & fs & IH)]; simpl; [by eauto|].
  case_bool_decide; [by eauto|]. rewrite IH. eauto.
Qed.

Lemma join_cons c field field' fields :
  join c (field :: field' :: fields) = field +:+ String c (join c (field' :: fields)).
Proof. reflexivity. Qed.

Lemma join_split c s : join c (split_on c s) = s.
Proof.
  induction s as [|a s IH]; [done|]. cbn [split_on].
  destruct (split_on_cons c s) as (f & fs & Hs). rewrite Hs in *.
  case_bool_decide as Hac.
  - subst a. rewrite join_cons, str_app_nil_l. by f_equal.
  - destruct fs as [|f' fs].
    + simpl in *. by f_equal.
    + rewrite join_cons in *. rewrite str_app_cons. by f_equal.
Qed.

Lemma split_fields_without c s : Forall (λ field, occurs c field = false) (split_on c s).
Proof.
  induction s as [|a s IH]; simpl; [by repeat constructor|].
  destruct (split_on_cons c s) as (f & fs & Hs). rewrite Hs in *.
  apply Forall_cons in IH as [Hf Hfs].
  case_bool_decide as Hac.
  - by repeat constructor.
  - constructor; [|done]. simpl. by rewrite bool_decide_eq_false_2.
Qed.

Lemma split_without c s : occurs c s = false → split_on c s = [s].
Proof.
  induction s as [|a s IH]; simpl; [done|].
  intros [Hac Hs]%orb_false_iff. rewrite Hac, IH by done. done.
Qed.

Lemma before_first_prefix sep s : ∃ r, s = before_first sep s +:+ r.
Proof.
  induction s as [|a s [r IH]]; simpl.
  - exists EmptyString. by destruct (prefix_of sep EmptyString).
  - destruct (prefix_of sep (String a s)); [by eexists|].
    exists r. rewrite str_app_cons. by f_equal.
Qed.

Lemma before_first_absent sep s : substring_of sep s = false → before_first sep s = s.
Proof.
  induction s as [|a s IH]; simpl.
  - by destruct (prefix_of sep EmptyString).
  - intros [Hp Hs]%orb_false_iff. rewrite Hp, IH by done. done.
Qed.

Lemma before_first_present sep s :
  substring_of sep s = true → ∃ r, s = before_first sep s +:+ sep +:+ r.
Proof.
  induction s as [|a s IH]; simpl.
  - rewrite orb_false_r. intros Hp. rewrite Hp. by apply prefix_of_split.
  - destruct (prefix_of sep (String a s)) eqn:Hp; simpl.
    + intros _. by apply prefix_of_split.
    + intros Hs. destruct (IH Hs) as [r Hr]. exists r.
      rewrite str_app_cons. by f_equal.
Qed.

Lemma before_first_without a sep s :
  substring_of (String a sep) (before_first (String a sep) s) = false.
Proof.
  induction s as [|b s IH].
  - reflexivity.
  - cbn [before_first].
    destruct (prefix_of (String a sep) (String b s)) eqn:Hp; [reflexivity|].
    cbn [substring_of]. rewrite IH, orb_false_r.
    destruct (prefix_of (String a sep) (String b (before_first (String a sep) s)))
      eqn:Hq; [|done].
    destruct (before_first_prefix (String a sep) s) as [r Hr].
    apply (prefix_of_extend _ _ r) in Hq. simpl in Hq. rewrite <- Hr in Hq.
    simpl in Hp. congruence.
Qed.

End StrFacts.

(* ===================================================================== *)
(** * Further properties of [models/base.py]                              *)
(* ===================================================================== *)

(** An instance of a class that does not override [to_dict] cannot be
    converted or printed: [to_dict(remove_nones=True)], [str(obj)] and
    [repr(obj)] raise [NotImplementedError], like [to_dict()]. *)
Theorem bare_model_cannot_be_printed {Self : Type}
    (json_dumps : gmap string PyValue → Z → Result string) (self : Self)
    (depth : nat) :
  ModelBase.call_to_dict None (2 + depth) self true = raise NotImplementedError ∧
  ModelBaseStr.__str__ None json_dumps (3 + depth) self = raise NotImplementedError ∧
  ModelBaseStr.__repr__ None json_dumps (4 + depth) self = raise NotImplementedError.
Proof. repeat split. Qed.

(** Removing the [None] values gives a part of the dictionary, removes
    nothing from a dictionary without [None] values, and removes nothing
    more when done again. *)
Theorem remove_nones_comprehension_stable (d : gmap string PyValue) :
  ModelBase.remove_nones_comprehension d ⊆ d ∧
  ((∀ k, d !! k ≠ Some PyNone) → ModelBase.remove_nones_comprehension d = d) ∧
  ModelBase.remove_nones_comprehension (ModelBase.remove_nones_comprehension d)
    = ModelBase.remove_nones_comprehension d.
Proof.
  pose proof (remove_nones_comprehension_lookup d) as Hd.
  split; [|split].
  - apply map_subseteq_spec. intros k v Hk. by apply Hd in Hk as [? _].
  - intros Hnone. apply map_eq. intros k. apply option_eq. intros v.
    rewrite Hd. split; [by intros [? _]|]. intros Hk. split; [done|].
    intros ->. by apply (Hnone k).
  - apply map_eq. intros k. apply option_eq. intros v.
    rewrite remove_nones_comprehension_lookup, !Hd. tauto.
Qed.

(* ===================================================================== *)
(** * Further properties of the configuration                             *)
(* ===================================================================== *)

Lemma required_key_remapped (v : string) :
  v ∈ TruStar.REQUIRED_KEYS →
  ∃ k, (k, v) ∈ TruStar.REMAPPED_KEYS ∧ (k ∉ TruStar.REQUIRED_KEYS).
Proof.
  unfold TruStar.REQUIRED_KEYS, TruStar.REMAPPED_KEYS. intros Hv.
  repeat (apply elem_of_cons in Hv as [->|Hv];
          [eexists; split; [by repeat constructor|not_in_literal]|]).
  by apply elem_of_nil in Hv.
Qed.

Lemma remap_keys_lookup (config : gmap string PyValue) (j : string) :
  ((j ∉ TruStar.REQUIRED_KEYS) ∧ TruStar.remap_keys config !! j = config !! j) ∨
  (∃ k, (k, j) ∈ TruStar.REMAPPED_KEYS ∧ (k ∉ TruStar.REQUIRED_KEYS) ∧
        TruStar.remap_keys config !! j = from_option Some (config !! k) (config !! j)).
Proof.
  destruct (decide (j ∈ TruStar.REQUIRED_KEYS)) as [Hj|Hj].
  - right. destruct (required_key_remapped j Hj) as (k & Hk & Hnk).
    exists k. repeat split; [done..|]. by apply remap_keys_canonical.
  - left. split; [done|]. by apply remap_keys_other.
Qed.

Lemma remap_keys_idempotent (config : gmap string PyValue) :
  TruStar.remap_keys (TruStar.remap_keys config) = TruStar.remap_keys config.
Proof.
  apply map_eq. intros j.
  destruct (remap_keys_lookup (TruStar.remap_keys config) j)
    as [[_ ->]|(k & Hk & Hnk & ->)]; [done|].
  rewrite (remap_keys_other _ k Hnk), (remap_keys_canonical _ k j Hk).
  by destruct (config !! j), (config !! k).
Qed.

(** Each of [auth], [base], [api_key] and [api_secret] is the value the
    dictionary has for that key when the key is present (also when the value
    is [None]), otherwise the value of its alternative key, and [None] when
    both are absent; no configuration makes [__init__] raise. *)
Theorem init_resolves_required_attributes (config : gmap string PyValue) :
  ∃ self, TruStar.__init__ config = ret self ∧
    TruStar.auth self
      = default (dict_get config "auth_endpoint") (config !! "auth") ∧
    TruStar.base self
      = default (dict_get config "api_endpoint") (config !! "base") ∧
    TruStar.api_key self
      = default (dict_get config "user_api_key") (config !! "api_key") ∧
    TruStar.api_secret self
      = default (dict_get config "user_api_secret") (config !! "api_secret").
Proof.
  eexists. split.
  { unfold TruStar.__init__. rewrite configure_is_remap. reflexivity. }
  unfold TruStar.set_properties, dict_get. simpl.
  rewrite (remap_keys_canonical config "auth_endpoint" "auth"),
    (remap_keys_canonical config "api_endpoint" "base"),
    (remap_keys_canonical config "user_api_key" "api_key"),
    (remap_keys_canonical config "user_api_secret" "api_secret")
    by (unfold TruStar.REMAPPED_KEYS; repeat constructor).
  repeat split.
  - by destruct (config !! "auth"), (config !! "auth_endpoint").
  - by destruct (config !! "base"), (config !! "api_endpoint").
  - by destruct (config !! "api_key"), (config !! "user_api_key").
  - by destruct (config !! "api_secret"), (config !! "user_api_secret").
Qed.

(** Configuring never removes or changes an entry of the given dictionary and
    adds entries for the four required keys only; configuring the result
    again changes nothing, so that it yields the same instance. *)
Theorem configure_extends_and_is_idempotent (config : gmap string PyValue) :
  ∃ config', TruStar.configure config = ret config' ∧
    config ⊆ config' ∧
    (∀ j, j ∉ TruStar.REQUIRED_KEYS → config' !! j = config !! j) ∧
    TruStar.configure config' = ret config' ∧
    TruStar.__init__ config' = TruStar.__init__ config.
Proof.
  exists (TruStar.remap_keys config).
  split; [apply configure_is_remap|]. split; [|split; [|split]].
  - apply map_subseteq_spec. intros j x Hj.
    destruct (remap_keys_lookup config j) as [[_ ->]|(k & _ & _ & ->)]; [done|].
    by rewrite Hj.
  - intros j Hj. by apply remap_keys_other.
  - by rewrite configure_is_remap, remap_keys_idempotent.
  - unfold TruStar.__init__.
    by rewrite !configure_is_remap, remap_keys_idempotent.
Qed.

(** The [enclave_ids] attribute is never a bare string: a string in the
    configuration becomes the list of that one string. *)
Theorem init_wraps_enclave_id (config : gmap string PyValue) :
  ∃ self, TruStar.__init__ config = ret self ∧
    (∀ s, TruStar.enclave_ids self ≠ PyStr s) ∧
    (∀ s, config !! "enclave_ids" = Some (PyStr s) →
          TruStar.enclave_ids self = PyList [PyStr s]) ∧
    (∀ l, config !! "enclave_ids" = Some (PyList l) →
          TruStar.enclave_ids self = PyList l).
Proof.
  eexists. split.
  { unfold TruStar.__init__. rewrite configure_is_remap. reflexivity. }
  unfold TruStar.set_properties, dict_get. simpl.
  rewrite (remap_keys_other config "enclave_ids") by not_in_literal.
  repeat split.
  - intros s. by destruct (config !! "enclave_ids") as [[]|].
  - by intros s ->.
  - by intros l ->.
Qed.

(* ===================================================================== *)
(** * Properties of the configuration file step                           *)
(* ===================================================================== *)

Section ApiFacts.
Context {W PageObj G IG : Type} {env : TruStar.Environment W PageObj G IG}.
Import TruStar Api.
Implicit Types (self : t) (kw kwargs config : gmap string PyValue) (w : W).

Lemma init_total config :
  __init__ config = ret (set_properties (remap_keys config)).
Proof. unfold __init__. by rewrite configure_is_remap. Qed.

Lemma init_keeps_enclave_list config (l : list PyValue) :
  enclave_ids (set_properties (remap_keys (<["enclave_ids" := PyList l]> config)))
    = PyList l.
Proof.
  unfold set_properties, dict_get. simpl.
  rewrite remap_keys_other by not_in_literal.
  by rewrite lookup_insert_eq.
Qed.


(** With the file parsed into [roles], [__init__] fails in two cases only:
    with [KeyError] when the role is missing, and with the
    'must be a list or a comma-separated list' exception when [enclave_ids]
    is present but is [None], a mapping or an object.  In every other case
    it returns an instance. *)
Theorem init_from_roles_outcome (roles : gmap string (gmap string PyValue))
    (config_role : string) :
  match roles !! config_role with
  | None =>
      init_from_roles roles config_role
        = raise (KeyError ("Could not find role " +:+ config_role))
  | Some section =>
      match section !! "enclave_ids" with
      | Some PyNone | Some (PyDict _) | Some (PyObject _ _) =>
          init_from_roles roles config_role
            = raise (Exception "'enclave_ids' must be a list or a comma-separated list")
      | _ => ∃ self, init_from_roles roles config_role = ret self
      end
  end.
Proof.
  unfold init_from_roles, role_config, parse_enclave_ids.
  destruct (roles !! config_role) as [section|]; [|done]. simpl.
  destruct (section !! "enclave_ids") as [[]|]; simpl;
    try reflexivity; rewrite init_total; eauto.
Qed.


Lemma filter_not_none_strs (fields : list string) :
  filter (λ x, is_none x = false) (PyStr <$> fields) = PyStr <$> fields.
Proof.
  induction fields as [|f fields IH]; [done|].
  rewrite fmap_cons, filter_cons_True by done. by rewrite IH.
Qed.

(** A comma-separated string of enclave ids is cut at its commas and each
    field is stripped: the fields, joined by commas again, are the string,
    and no field contains a comma.  ([str] of a string is that string.) *)
Theorem init_from_roles_comma_separated (roles : gmap string (gmap string PyValue))
    (config_role : string) (section : gmap string PyValue) (s : string) :
  (∀ x, py_str (PyStr x) = x) →
  roles !! config_role = Some section →
  section !! "enclave_ids" = Some (PyStr s) →
  ∃ self fields,
    init_from_roles roles config_role = ret self ∧
    Str.join Str.comma fields = s ∧
    Forall (λ f, Str.occurs Str.comma f = false) fields ∧
    enclave_ids self = PyList ((λ f, PyStr (Str.strip_whitespace f)) <$> fields).
Proof.
  intros Hstr Hrole Hids.
  exists (set_properties (remap_keys
            (<["enclave_ids" :=
                 PyList ((λ f, PyStr (Str.strip_whitespace f))
                           <$> Str.split_on Str.comma s)]> section))),
         (Str.split_on Str.comma s).
  split; [|split; [apply join_split|split; [apply split_fields_without|]]].
  - unfold init_from_roles, role_config, parse_enclave_ids.
    rewrite Hrole. simpl. rewrite Hids. simpl.
    rewrite filter_not_none_strs, <- list_fmap_compose, init_total.
    do 5 f_equal. apply list_fmap_ext. intros i f _. simpl. by rewrite Hstr.
  - apply init_keeps_enclave_list.
Qed.

End ApiFacts.


Lemma init_from_roles_comma_separated_witness :
  ∃ self fields,
    Api.init_from_roles (env := Scenario.answering Scenario.ok_response)
      Cases.station_roles "trustar" = ret self ∧
    Str.join Str.comma fields = "a1, b2 " ∧
    Forall (λ f, Str.occurs Str.comma f = false) fields ∧
    TruStar.enclave_ids self
      = PyList ((λ f, PyStr (Str.strip_whitespace f)) <$> fields).
Proof.
  apply (init_from_roles_comma_separated (env := Scenario.answering Scenario.ok_response)
           Cases.station_roles "trustar"
           (<["enclave_ids" := PyStr "a1, b2 "]> Scenario.station_config) "a1, b2 ").
  - reflexivity.
  - reflexivity.
  - reflexivity.
Defined.

(* ===================================================================== *)
(** * Properties of the requests                                          *)
(* ===================================================================== *)

Section RequestFacts.
Context {W PageObj G IG : Type} {env : TruStar.Environment W PageObj G IG}.
Import TruStar Api.
Implicit Types (self : t) (kw kwargs : gmap string PyValue) (w : W).

Lemma get_headers_token_failure self (is_json : bool) w (e : PyExc) w1 :
  __get_token self w = (raise e, w1) →
  __get_headers self is_json w = (raise e, w1).
Proof. intros Htok. unfold __get_headers, io_bind. by rewrite Htok. Qed.

Lemma io_bind_stops {A B} (m : IO A) (k : A → IO B) w (e : PyExc) w1 :
  stops_before_request e w w1 (m w) →
  stops_before_request e w w1 (io_bind m k w).
Proof.
  unfold stops_before_request, io_bind.
  intros [Hm|[Hm|Hm]]; rewrite Hm; auto.
Qed.

Lemma io_lift_stops {A B} (r : Result A) (k : A → IO B) w (e : PyExc) w1 :
  (∀ e', r = raise e' → e' = TypeError ∨ e' = AttributeError) →
  (∀ a, r = ret a → stops_before_request e w w1 (k a w)) →
  stops_before_request e w w1 (io_bind (io_lift r) k w).
Proof.
  intros Herr Hok. unfold io_bind, io_lift.
  destruct r as [e'|a].
  - destruct (Herr e' eq_refl) as [-> | ->]; unfold stops_before_request; auto.
  - by apply Hok.
Qed.

Lemma kw_pass_error (name : string) (v : PyValue) kwargs (e : PyExc) :
  kw_pass name v kwargs = raise e → e = TypeError ∨ e = AttributeError.
Proof. unfold kw_pass. destruct (kwargs !! name); [intros [= <-]; auto|discriminate]. Qed.

Lemma request_stops self (method path : string) kwargs w (e : PyExc) w1 :
  __get_token self w = (raise e, w1) →
  stops_before_request e w w1 (__request self method path kwargs w).
Proof.
  intros Htok. unfold __request.
  destruct (kw_has ["method"; "path"] kwargs).
  - right. by left.
  - apply io_bind_stops. left. by apply get_headers_token_failure.
Qed.

(** An endpoint that stops before its request when the token request fails. *)
Ltac solve_stops :=
  repeat first
    [ apply request_stops; assumption
    | apply io_lift_stops; [by (intros ?; apply kw_pass_error)|intros ? _]
    | apply io_bind_stops
    | match goal with
      | |- stops_before_request _ _ _ ((if ?c then _ else _) _) =>
          destruct c; [right; by left|]
      end ].

(** When the token cannot be obtained, no endpoint sends its request or
    returns a result: each raises the error of the token request, in the
    world that request left, unless it has rejected its arguments before any
    network traffic. *)
Theorem endpoints_stop_on_token_failure self w (e : PyExc) w1
    (method path : string) (kw : gmap string PyValue)
    (report_id name enclave_id indicators : PyValue) :
  __get_token self w = (raise e, w1) →
  stops_before_request e w w1 (__request self method path kw w) ∧
  stops_before_request e w w1 (ping self kw w) ∧
  stops_before_request e w w1 (get_version self kw w) ∧
  stops_before_request e w w1 (get_report_details self report_id kw w) ∧
  stops_before_request e w w1 (get_reports self kw w) ∧
  stops_before_request e w w1 (delete_report self report_id kw w) ∧
  stops_before_request e w w1 (get_correlated_reports self indicators kw w) ∧
  stops_before_request e w w1 (get_community_trends self kw w) ∧
  stops_before_request e w w1 (get_related_indicators self kw w) ∧
  stops_before_request e w w1 (get_related_external_indicators self kw w) ∧
  stops_before_request e w w1 (get_enclave_tags self report_id kw w) ∧
  stops_before_request e w w1 (add_enclave_tag self report_id name enclave_id kw w) ∧
  stops_before_request e w w1 (delete_enclave_tag self report_id name enclave_id kw w) ∧
  stops_before_request e w w1 (get_all_enclave_tags self kw w).
Proof.
  intros Htok.
  repeat split;
    unfold ping, get_version, get_report_details, get_reports, delete_report,
      get_correlated_reports, get_community_trends, get_related_indicators,
      get_related_external_indicators, get_enclave_tags, add_enclave_tag,
      delete_enclave_tag, get_all_enclave_tags, __get, __post, __delete;
    try by solve_stops.
  (* get_reports: the distribution type is looked at first *)
  apply io_lift_stops; [|intros ? _; by solve_stops].
  intros e'.
  destruct (is_none (dict_get kw "enclave_ids") && _); [|discriminate].
  destruct (dict_get kw "distribution_type"); try (intros [= <-]; by auto).
  by case_bool_decide.
Qed.

End RequestFacts.

Section HeaderFacts.
Context {W PageObj G IG : Type} {env : TruStar.Environment W PageObj G IG}.
Import TruStar Api.
Implicit Types (self : t) (kw kwargs : gmap string PyValue) (w : W).

(** The header of an attribute: present with the attribute's value unless
    the attribute is [None]. *)
Lemma client_header_lookup (attr : PyValue) (name k : string)
    (headers : gmap string PyValue) :
  (if is_none attr then headers else <[name := attr]> headers) !! k
    = if decide (k = name)
      then (if is_none attr then headers !! k else Some attr)
      else headers !! k.
Proof.
  destruct (is_none attr); case_decide; subst;
    by rewrite ?lookup_insert_eq, ?lookup_insert_ne.
Qed.

(** With the token [tok], the headers of a request are: [Authorization] with
    the bearer token; [Content-Type: application/json] exactly for a JSON
    request; [Client-Type], [Client-Version] and [Client-Metatag] with the
    instance's values, each left out when its value is [None]; and nothing
    else. *)
Theorem get_headers_content self (is_json : bool) w (tok : string) w1 :
  __get_token self w = (ret (PyStr tok), w1) →
  ∃ headers, __get_headers self is_json w = (ret headers, w1) ∧
    headers !! "Authorization" = Some (PyStr ("Bearer " +:+ tok)) ∧
    headers !! "Content-Type"
      = (if is_json then Some (PyStr "application/json") else None) ∧
    headers !! "Client-Type"
      = (if is_none (client_type self) then None else Some (client_type self)) ∧
    headers !! "Client-Version"
      = (if is_none (client_version self) then None else Some (client_version self)) ∧
    headers !! "Client-Metatag"
      = (if is_none (client_metatag self) then None else Some (client_metatag self)) ∧
    ∀ k, k ∉ ["Authorization"; "Content-Type"; "Client-Type"; "Client-Version";
              "Client-Metatag"] → headers !! k = None.
Proof.
  intros Htok. eexists. split.
  { unfold __get_headers, io_bind. rewrite Htok. reflexivity. }
  assert (Hjson : ∀ (h : gmap string PyValue) k,
            (if is_json then <["Content-Type" := PyStr "application/json"]> h else h) !! k
            = if decide (k = "Content-Type")
              then (if is_json then Some (PyStr "application/json") else h !! k)
              else h !! k).
  { intros h k. destruct is_json; case_decide; subst;
      by rewrite ?lookup_insert_eq, ?lookup_insert_ne. }
  repeat split.
  - rewrite Hjson, !client_header_lookup. simpl. apply lookup_singleton_eq.
  - rewrite Hjson, !client_header_lookup. simpl. by destruct is_json.
  - rewrite Hjson, !client_header_lookup. simpl. by destruct (is_none _).
  - rewrite Hjson, !client_header_lookup. simpl. by destruct (is_none _).
  - rewrite Hjson, !client_header_lookup. simpl. by destruct (is_none _).
  - intros k Hk. rewrite Hjson, !client_header_lookup.
    repeat (apply not_elem_of_cons in Hk as [? Hk]).
    repeat (case_decide; [done|]). by apply lookup_singleton_ne.
Qed.

(** The outcome of a request that reaches the server: with the headers
    [headers] of the instance, the caller's [headers] keyword put over them,
    and the answer [resp] of [requests.request] to that call, [__request]
    returns [resp] when its status is outside 400..599; inside, it raises
    [HTTPError] whose reason is the [message] entry of the JSON body, or
    'unknown cause' when the body has none; and when the body of such an
    answer is not JSON, the decoding error is raised instead. *)
Theorem request_outcome self (method path : string) kwargs w
    (headers sent : gmap string PyValue) w1 (resp : Response) w2 :
  kw_has ["method"; "path"; "url"; "verify"] kwargs = false →
  match dict_get kwargs "headers" with
  | PyNone => sent = headers
  | PyDict given => sent = given ∪ headers
  | _ => False
  end →
  __get_headers self (bool_decide (method ∈ ["POST"; "PUT"])) w = (ret headers, w1) →
  requests_request method (py_str (base self) +:+ "/" +:+ path) sent (verify self)
    (delete "headers" kwargs) w1 = (ret resp, w2) →
  (¬ (400 ≤ status_code resp < 600) →
     __request self method path kwargs w = (ret resp, w2)) ∧
  (400 ≤ status_code resp < 600 →
     (∀ body, json resp = ret (PyDict body) →
        __request self method path kwargs w
          = (raise (HTTPError
                      (error_message (status_code resp)
                         (match body !! "message" with
                          | Some m => py_str m
                          | None => "unknown cause"
                          end))
                      (status_code resp)), w2)) ∧
     (∀ e, json resp = raise e →
        __request self method path kwargs w = (raise e, w2))).
Proof.
  intros Hkw Hsent Hhead Hreq.
  assert (Hkw1 : kw_has ["method"; "path"] kwargs = false).
  { unfold kw_has in *. simpl in *.
    apply orb_false_iff in Hkw as [H1 Hkw]. apply orb_false_iff in Hkw as [H2 _].
    by rewrite H1, H2. }
  assert (Hkw2 : kw_has ["url"; "verify"] (delete "headers" kwargs) = false).
  { unfold kw_has in *. simpl in *.
    apply orb_false_iff in Hkw as [_ Hkw]. apply orb_false_iff in Hkw as [_ Hkw].
    apply orb_false_iff in Hkw as [H3 Hkw]. apply orb_false_iff in Hkw as [H4 _].
    rewrite !lookup_delete_ne by done. by rewrite H3, H4. }
  assert (Hrun : __request self method path kwargs w
          = (if (400 <=? status_code resp) && (status_code resp <? 600)
             then io_lift
                    (let* body := json resp in
                     let* has_message := contains body "message" in
                     let* reason := if has_message
                                    then let* m := subscript body "message" in
                                         ret (py_str m)
                                    else ret "unknown cause" in
                     raise (HTTPError (error_message (status_code resp) reason)
                                      (status_code resp)))
             else io_lift (ret resp)) w2).
  { unfold __request. rewrite Hkw1. unfold io_bind at 1. rewrite Hhead.
    unfold io_bind at 1.
    destruct (dict_get kwargs "headers"); try done; subst sent;
      unfold io_lift at 1; rewrite Hkw2; unfold io_bind at 1;
      unfold ret at 1 2; cbv beta iota; by rewrite Hreq. }
  rewrite Hrun. split.
  - intros Hout.
    assert ((400 <=? status_code resp) && (status_code resp <? 600) = false) as ->;
      [|done].
    apply andb_false_iff.
    destruct (Z.leb_spec 400 (status_code resp)); [right|by left].
    apply Z.ltb_ge. lia.
  - intros [Hlo Hhi].
    rewrite (proj2 (Z.leb_le _ _) Hlo), (proj2 (Z.ltb_lt _ _) Hhi). simpl.
    split.
    + intros body ->. unfold io_lift. simpl.
      destruct (body !! "message") as [m|] eqn:Hm; simpl.
      * unfold dict_item. by rewrite Hm.
      * reflexivity.
    + intros e ->. reflexivity.
Qed.

End HeaderFacts.

(* ===================================================================== *)
(** * Properties of the endpoints                                         *)
(* ===================================================================== *)

Section EndpointFacts.
Context {W PageObj G IG : Type} {env : TruStar.Environment W PageObj G IG}.
Import TruStar Api.
Implicit Types (self : t) (kw kwargs : gmap string PyValue) (w : W).

Lemma lookup_foldr_delete (names : list string) kw (k : string) :
  foldr delete kw names !! k = if decide (k ∈ names) then None else kw !! k.
Proof.
  induction names as [|n names IH]; cbn [foldr].
  - destruct (decide (k ∈ [])) as [Hk|Hk]; [by apply elem_of_nil in Hk|done].
  - destruct (decide (k = n)) as [->|Hne].
    + rewrite lookup_delete_eq. rewrite decide_True; [done|by left].
    + rewrite lookup_delete_ne, IH by done.
      destruct (decide (k ∈ names)) as [Hin|Hin].
      * rewrite decide_True; [done|by right].
      * rewrite decide_False; [done|].
        intros [?|?]%elem_of_cons; contradiction.
Qed.

Lemma kw_pass_taken (name : string) (v x : PyValue) kwargs :
  kwargs !! name = Some x → kw_pass name v kwargs = raise TypeError.
Proof. intros Hk. unfold kw_pass. by rewrite Hk. Qed.

(** A [params] keyword is rejected: the endpoints that build the query
    parameters themselves raise [TypeError] when the caller passes [params],
    before any network traffic. *)
Theorem params_keyword_rejected self kw (v : PyValue) w
    (report_id name enclave_id indicators : PyValue) :
  kw !! "params" = Some v →
  get_report_details self report_id kw w = (raise TypeError, w) ∧
  delete_report self report_id kw w = (raise TypeError, w) ∧
  get_correlated_reports self indicators kw w = (raise TypeError, w) ∧
  get_community_trends self kw w = (raise TypeError, w) ∧
  get_related_indicators self kw w = (raise TypeError, w) ∧
  get_related_external_indicators self kw w = (raise TypeError, w) ∧
  get_enclave_tags self report_id kw w = (raise TypeError, w) ∧
  add_enclave_tag self report_id name enclave_id kw w = (raise TypeError, w) ∧
  delete_enclave_tag self report_id name enclave_id kw w = (raise TypeError, w) ∧
  get_all_enclave_tags self kw w = (raise TypeError, w).
Proof.
  intros Hp.
  assert (Hdel : ∀ names, "params" ∉ names → foldr delete kw names !! "params" = Some v).
  { intros names Hn. rewrite lookup_foldr_delete. by rewrite decide_False. }
  repeat split;
    unfold get_report_details, delete_report, get_correlated_reports,
      get_community_trends, get_related_indicators,
      get_related_external_indicators, get_enclave_tags, add_enclave_tag,
      delete_enclave_tag, get_all_enclave_tags;
    try (destruct (kw_has _ kw); [reflexivity|]);
    unfold io_bind at 1, io_lift at 1;
    match goal with
    | |- context [kw_pass "params" ?p ?k] =>
        rewrite (kw_pass_taken "params" p v k); [reflexivity|]
    end;
    first [ exact Hp
          | apply (Hdel [_]); not_in_literal
          | apply Hdel; not_in_literal ].
Qed.

(** A [page_number] keyword given to a page-generator constructor is not
    refused there: the generator is built, and every fetch of its closure
    raises [TypeError] without any network traffic. *)
Theorem page_number_keyword_breaks_fetch self kw (v : PyValue) :
  kw !! "page_number" = Some v →
  (∃ func, get_report_page_generator self kw
             = Page_get_page_generator func (start_page_of kw) (page_size_of kw) ∧
           ∀ n s w, func n s w = (raise TypeError, w)) ∧
  (∃ func, get_community_trends_page_generator self kw
             = Page_get_page_generator func (start_page_of kw) (page_size_of kw) ∧
           ∀ n s w, func n s w = (raise TypeError, w)) ∧
  (∃ func, get_related_indicators_page_generator self kw
             = Page_get_page_generator func (start_page_of kw) (page_size_of kw) ∧
           ∀ n s w, func n s w = (raise TypeError, w)).
Proof.
  intros Hp.
  assert (Hfunc : ∀ (endpoint : gmap string PyValue → W → Result PageObj * W) n s w,
            page_func endpoint (rest_of kw) n s w = (raise TypeError, w)).
  { intros endpoint n s w. unfold page_func, rest_of.
    erewrite kw_pass_taken; [done|].
    rewrite !lookup_delete_ne by done. exact Hp. }
  repeat split; eexists; (split; [reflexivity|apply Hfunc]).
Qed.

(** Leaving out [enclave_ids] in a call of [get_reports] whose distribution
    type reads ENCLAVE in any letter case is the same as passing the enclave
    ids of the instance. *)
Theorem get_reports_defaults_enclave_ids self kw (s : string) w :
  dict_get kw "enclave_ids" = PyNone →
  kw !! "distribution_type" = Some (PyStr s) →
  upper s = DISTRIBUTION_TYPE_ENCLAVE →
  get_reports self kw w
    = get_reports self (<["enclave_ids" := enclave_ids self]> kw) w.
Proof.
  intros Hids Hdist Hupper. unfold get_reports.
  assert (Hrest : foldr delete (<["enclave_ids" := enclave_ids self]> kw)
                    ["distribution_type"; "enclave_ids"; "tag"; "from_time";
                     "to_time"; "page_number"; "page_size"]
                  = foldr delete kw
                      ["distribution_type"; "enclave_ids"; "tag"; "from_time";
                       "to_time"; "page_number"; "page_size"]).
  { apply map_eq. intros k. rewrite !lookup_foldr_delete.
    case_decide as Hk; [done|]. apply lookup_insert_ne.
    intros <-. apply Hk. apply list_elem_of_further, list_elem_of_here. }
  rewrite Hrest. unfold dict_get in *.
  rewrite lookup_insert_eq.
  rewrite !(lookup_insert_ne kw "enclave_ids") by done.
  rewrite Hdist. simpl.
  destruct (kw !! "enclave_ids") as [x|]; simpl in Hids; subst; simpl;
    rewrite bool_decide_eq_true_2 by done;
    by destruct (is_none (enclave_ids self)).
Qed.

(** A distribution type that is not a string makes [get_reports] raise
    [AttributeError] before any network traffic when no enclave ids are
    given. *)
Theorem get_reports_rejects_distribution_type self kw (v : PyValue) w :
  dict_get kw "enclave_ids" = PyNone →
  kw !! "distribution_type" = Some v →
  match v with
  | PyBool _ | PyInt _ | PyList _ | PyDict _ => True
  | _ => False
  end →
  get_reports self kw w = (raise AttributeError, w).
Proof.
  intros Hids Hdist Hv. unfold get_reports, dict_get in *.
  rewrite Hdist, Hids. by destruct v.
Qed.

(** [ping] and [get_version] decode the body of the answer and return it
    without the newlines at its two ends: when the body is well-formed UTF-8
    it is a run of newlines, the result, and a run of newlines, and the
    result neither begins nor ends with one; when it is not, they raise
    [UnicodeDecodeError]. *)
Theorem ping_strips_newlines self kwargs w (path : string) (resp : Response) w1 :
  __get self path kwargs w = (ret resp, w1) →
  (Str.utf8_valid (content resp) = false →
     (path = "ping" → ping self kwargs w = (raise UnicodeDecodeError, w1)) ∧
     (path = "version" → get_version self kwargs w = (raise UnicodeDecodeError, w1))) ∧
  (Str.utf8_valid (content resp) = true →
     ∃ s l r,
       content resp = l +:+ s +:+ r ∧
       Str.all_chars (λ c, bool_decide (c = Str.newline)) l = true ∧
       Str.all_chars (λ c, bool_decide (c = Str.newline)) r = true ∧
       Str.ends_clean (λ c, bool_decide (c = Str.newline)) s ∧
       (path = "ping" → ping self kwargs w = (ret s, w1)) ∧
       (path = "version" → get_version self kwargs w = (ret s, w1))).
Proof.
  intros Hget. split; intros Hvalid.
  - split; intros ->; unfold ping, get_version, io_bind; rewrite Hget;
      unfold ret at 1; cbv beta iota; unfold io_lift, Str.decode_utf8;
      by rewrite Hvalid.
  - destruct (strip_split (λ c, bool_decide (c = Str.newline)) (content resp))
      as (l & r & Hs & Hl & Hr).
    exists (Str.strip (λ c, bool_decide (c = Str.newline)) (content resp)), l, r.
    split; [exact Hs|]. split; [exact Hl|]. split; [exact Hr|].
    split; [apply strip_ends|].
    split; intros ->; unfold ping, get_version, io_bind; rewrite Hget;
      unfold ret at 1; cbv beta iota; unfold io_lift, Str.decode_utf8;
      by rewrite Hvalid.
Qed.

(** The URL of a report: for a base that is the production API it is under
    [https://station.trustar.co]; for any other base it is under the part of
    the base before its first [/api/], that is the shortest part of the base
    that is followed by [/api/], or under the whole base when the base has no
    [/api/]. *)
Theorem get_report_url_of_base self (b : string) (report_id : PyValue) :
  base self = PyStr b →
  ∃ base_url,
    get_report_url self report_id
      = ret (base_url +:+ "/constellation/reports/" +:+ py_str report_id) ∧
    (substring_of "https://api.trustar.co" b = true →
       base_url = "https://station.trustar.co") ∧
    (substring_of "https://api.trustar.co" b = false →
       substring_of "/api/" base_url = false ∧
       (substring_of "/api/" b = true →
          (∃ r, b = base_url +:+ "/api/" +:+ r) ∧
          (∀ t r, b = t +:+ "/api/" +:+ r →
                  (String.length base_url ≤ String.length t)%nat)) ∧
       (substring_of "/api/" b = false → base_url = b)).
Proof.
  intros Hb. unfold get_report_url. rewrite Hb.
  destruct (substring_of "https://api.trustar.co" b) eqn:Hprod.
  - eexists. split; [reflexivity|]. split; [done|discriminate].
  - exists (Str.before_first "/api/" b).
    split; [reflexivity|]. split; [discriminate|]. intros _.
    split; [apply before_first_without|].
    split; [|apply before_first_absent].
    intros Hin. split; [by apply before_first_present|].
    intros t r. apply before_first_shortest.
Qed.

(** A configuration without [base] and without [api_endpoint] is accepted by
    [__init__], the [base] of the instance is [None], and [get_report_url]
    on the instance raises [TypeError]. *)
Theorem get_report_url_without_base (config : gmap string PyValue)
    (report_id : PyValue) :
  config !! "base" = None →
  config !! "api_endpoint" = None →
  ∃ self, __init__ config = ret self ∧
          base self = PyNone ∧
          get_report_url self report_id = raise TypeError.
Proof.
  intros Hbase Halt. eexists. split; [apply init_total|].
  assert (Hnone : base (set_properties (remap_keys config)) = PyNone).
  { unfold set_properties, dict_get. simpl.
    rewrite (remap_keys_canonical config "api_endpoint" "base")
      by (unfold REMAPPED_KEYS; repeat constructor).
    by rewrite Hbase, Halt. }
  split; [exact Hnone|]. unfold get_report_url. by rewrite Hnone.
Qed.

End EndpointFacts.

(* ===================================================================== *)
(** * The further properties at concrete inputs                           *)
(* ===================================================================== *)

Lemma endpoints_stop_on_token_failure_witness :
  TruStar.__get_token (env := Scenario.answering Cases.denied_response)
    Scenario.client tt = (raise Cases.denied_error, tt) ∧
  Api.stops_before_request Cases.denied_error tt tt
    (Api.ping (env := Scenario.answering Cases.denied_response) Scenario.client ∅ tt).
Proof.
  assert (H : TruStar.__get_token (env := Scenario.answering Cases.denied_response)
                Scenario.client tt = (raise Cases.denied_error, tt)) by reflexivity.
  split; [exact H|].
  destruct (endpoints_stop_on_token_failure
              (env := Scenario.answering Cases.denied_response)
              Scenario.client tt Cases.denied_error tt "GET" "ping" ∅
              PyNone PyNone PyNone PyNone H) as (_ & Hping & _).
  exact Hping.
Defined.

Lemma get_headers_content_witness :
  ∃ headers,
    TruStar.__get_headers (env := Scenario.answering Scenario.ok_response)
      Scenario.client true tt = (ret headers, tt) ∧
    headers !! "Authorization" = Some (PyStr "Bearer tok") ∧
    headers !! "Content-Type" = Some (PyStr "application/json") ∧
    headers !! "Client-Type" = None ∧
    headers !! "Client-Version" = None ∧
    headers !! "Client-Metatag" = None ∧
    ∀ k, k ∉ ["Authorization"; "Content-Type"; "Client-Type"; "Client-Version";
              "Client-Metatag"] → headers !! k = None.
Proof.
  apply (get_headers_content (env := Scenario.answering Scenario.ok_response)
           Scenario.client true tt "tok" tt).
  reflexivity.
Defined.

Lemma request_outcome_witness :
  ¬ (400 ≤ TruStar.status_code Scenario.ok_response < 600) ∧
  TruStar.__request (env := Scenario.answering Scenario.ok_response)
    Scenario.client "GET" "ping" ∅ tt = (ret Scenario.ok_response, tt).
Proof.
  assert (Hout : ¬ (400 ≤ TruStar.status_code Scenario.ok_response < 600))
    by (simpl; lia).
  split; [exact Hout|].
  apply (request_outcome (env := Scenario.answering Scenario.ok_response)
           Scenario.client "GET" "ping" ∅ tt Cases.token_headers
           Cases.token_headers tt Scenario.ok_response tt);
    [reflexivity..|exact Hout].
Defined.

Lemma params_keyword_rejected_witness :
  TruStar.get_community_trends (env := Scenario.answering Scenario.ok_response)
    Scenario.client {["params" := PyDict ∅]} tt = (raise TypeError, tt).
Proof.
  assert (H : ({["params" := PyDict ∅]} : gmap string PyValue) !! "params"
              = Some (PyDict ∅)) by reflexivity.
  destruct (params_keyword_rejected (env := Scenario.answering Scenario.ok_response)
              Scenario.client {["params" := PyDict ∅]} (PyDict ∅) tt
              PyNone PyNone PyNone PyNone H)
    as (_ & _ & _ & Htrends & _).
  exact Htrends.
Defined.

Lemma page_number_keyword_breaks_fetch_witness :
  ∃ func : PyValue → PyValue → unit → Result PyValue * unit,
    TruStar.get_report_page_generator (env := Scenario.answering Scenario.ok_response)
      Scenario.client {["page_number" := PyInt 3]} = (PyInt 0, PyNone) ∧
    ∀ n s w, func n s w = (raise TypeError, w).
Proof.
  assert (H : ({["page_number" := PyInt 3]} : gmap string PyValue) !! "page_number"
              = Some (PyInt 3)) by reflexivity.
  destruct (page_number_keyword_breaks_fetch
              (env := Scenario.answering Scenario.ok_response)
              Scenario.client {["page_number" := PyInt 3]} (PyInt 3) H)
    as ((func & Hgen & Hfunc) & _).
  exists func. split; [exact Hgen|exact Hfunc].
Defined.

Lemma get_reports_defaults_enclave_ids_witness :
  TruStar.get_reports (env := Scenario.answering Scenario.ok_response)
    Cases.station_client {["distribution_type" := PyStr "enclave"]} tt
  = TruStar.get_reports (env := Scenario.answering Scenario.ok_response)
      Cases.station_client
      (<["enclave_ids" := PyList [PyStr "a1"; PyStr "b2"]]>
         {["distribution_type" := PyStr "enclave"]}) tt.
Proof.
  apply (get_reports_defaults_enclave_ids
           (env := Scenario.answering Scenario.ok_response)
           Cases.station_client {["distribution_type" := PyStr "enclave"]}
           "enclave" tt); reflexivity.
Defined.

Lemma get_reports_rejects_distribution_type_witness :
  TruStar.get_reports (env := Scenario.answering Scenario.ok_response)
    Scenario.client {["distribution_type" := PyInt 1]} tt
  = (raise AttributeError, tt).
Proof.
  apply (get_reports_rejects_distribution_type
           (env := Scenario.answering Scenario.ok_response)
           Scenario.client {["distribution_type" := PyInt 1]} (PyInt 1) tt);
    [reflexivity|reflexivity|exact I].
Defined.

Lemma ping_strips_newlines_witness :
  ∃ s l r,
    TruStar.content Cases.pong_response = l +:+ s +:+ r ∧
    Str.all_chars (λ c, bool_decide (c = Str.newline)) l = true ∧
    Str.all_chars (λ c, bool_decide (c = Str.newline)) r = true ∧
    Str.ends_clean (λ c, bool_decide (c = Str.newline)) s ∧
    ("ping" = "ping" →
       Api.ping (env := Scenario.answering Cases.pong_response) Scenario.client ∅ tt
         = (ret s, tt)) ∧
    ("ping" = "version" →
       Api.get_version (env := Scenario.answering Cases.pong_response)
         Scenario.client ∅ tt = (ret s, tt)).
Proof.
  assert (Hget : TruStar.__get (env := Scenario.answering Cases.pong_response)
                   Scenario.client "ping" ∅ tt = (ret Cases.pong_response, tt))
    by reflexivity.
  destruct (ping_strips_newlines (env := Scenario.answering Cases.pong_response)
              Scenario.client ∅ tt "ping" Cases.pong_response tt Hget)
    as [_ Hvalid].
  apply Hvalid. reflexivity.
Defined.

Lemma get_report_url_of_base_witness :
  ∃ base_url,
    Api.get_report_url (env := Scenario.answering Scenario.ok_response)
      Scenario.client (PyStr "r1")
      = ret (base_url +:+ "/constellation/reports/" +:+ "r1") ∧
    (substring_of "https://api.trustar.co" "https://api.trustar.co/api/1.3-beta" = true →
       base_url = "https://station.trustar.co") ∧
    (substring_of "https://api.trustar.co" "https://api.trustar.co/api/1.3-beta" = false →
       substring_of "/api/" base_url = false ∧
       (substring_of "/api/" "https://api.trustar.co/api/1.3-beta" = true →
          (∃ r, "https://api.trustar.co/api/1.3-beta" = base_url +:+ "/api/" +:+ r) ∧
          (∀ t r, "https://api.trustar.co/api/1.3-beta" = t +:+ "/api/" +:+ r →
                  (String.length base_url ≤ String.length t)%nat)) ∧
       (substring_of "/api/" "https://api.trustar.co/api/1.3-beta" = false →
          base_url = "https://api.trustar.co/api/1.3-beta")).
Proof.
  apply (get_report_url_of_base (env := Scenario.answering Scenario.ok_response)
           Scenario.client "https://api.trustar.co/api/1.3-beta" (PyStr "r1")).
  reflexivity.
Defined.

Lemma get_report_url_without_base_witness :
  ∃ self, TruStar.__init__ ∅ = ret self ∧
          TruStar.base self = PyNone ∧
          Api.get_report_url (env := Scenario.answering Scenario.ok_response)
            self (PyStr "r1") = raise TypeError.
Proof.
  apply (get_report_url_without_base (env := Scenario.answering Scenario.ok_response)
           ∅ (PyStr "r1")); reflexivity.
Defined.

(** More bases, evaluated: a staging host, and a base without [/api/]. *)
Example report_url_of_staging :
  Str.before_first "/api/" "https://staging.example/api/1.3" = "https://staging.example" ∧
  Str.before_first "/api/" "https://example.org/v1" = "https://example.org/v1".
Proof. split; reflexivity. Qed.

(** A string base apart, [get_report_url] gives the station URL for a list
    that has the production URL among its elements and raises for a mapping
    that has no such key. *)
Example report_url_of_list_and_mapping :
  Api.get_report_url (env := Scenario.answering Scenario.ok_response)
    (TruStar.mk PyNone (PyList [PyStr "https://api.trustar.co"])
       PyNone PyNone PyNone PyNone PyNone PyNone PyNone) (PyStr "r1")
    = ret "https://station.trustar.co/constellation/reports/r1" ∧
  Api.get_report_url (env := Scenario.answering Scenario.ok_response)
    (TruStar.mk PyNone (PyDict ∅) PyNone PyNone PyNone PyNone PyNone PyNone PyNone)
    (PyStr "r1")
    = raise AttributeError.
Proof. split; reflexivity. Qed.

(** A no-break space, U+00A0, at the end of an enclave id is stripped, and a
    body that is not UTF-8 does not decode. *)
Example strip_and_decode_beyond_ascii :
  Str.strip_whitespace
    ("a1" +:+ String (Ascii.ascii_of_nat 194) (String (Ascii.ascii_of_nat 160) EmptyString))
    = "a1" ∧
  Str.decode_utf8 (String (Ascii.ascii_of_nat 255) (String Str.newline EmptyString))
    = raise UnicodeDecodeError.
Proof. split; reflexivity. Qed.
